(** * Google Maps Platform tool adapters: a shallow embedding

    The repository is a collection of independent tool adapters.  Every
    adapter pairs a declaration (a JSON-Schema parameter list) with an
    [executeFunction] that maps the caller's arguments to one HTTP request
    against a fixed Google Maps Platform endpoint, forwards the API key read
    from the process environment, and returns the decoded response or an
    error value.

    The development has four layers:
    - the JavaScript values the adapters handle and the language conversions
      they rely on ([ToBoolean], [ToString], [JSON_stringify]);
    - the platform objects they call ([URLSearchParams], [URL], [fetch] and
      its [Response]);
    - the adapters themselves, one request builder per source function and
      the three try/catch skeletons the source repeats;
    - the properties of the adapter contract. *)

From Stdlib Require Import String Ascii List ZArith Lia Bool DecimalString.
From ExtLib Require Import Structures.Monad.
Import ListNotations.
Import MonadNotation.

Local Open Scope list_scope.
Local Open Scope monad_scope.
Local Open Scope string_scope.

Set Implicit Arguments.

(** ** Text helpers *)

Module Text.

(** The double-quote character and a string wrapped in a pair of them. *)
Definition dquote : ascii := ascii_of_nat 34.
Definition backslash : ascii := ascii_of_nat 92.

Definition quoted (s : string) : string :=
  String dquote (s ++ String dquote "").

(** [join sep pieces] is [Array.prototype.join] on strings. *)
Fixpoint join (sep : string) (pieces : list string) : string :=
  match pieces with
  | [] => ""
  | [p] => p
  | p :: rest => p ++ sep ++ join sep rest
  end.

(** Decimal rendering of an integer, as ECMAScript prints a safe integer. *)
Definition decimal (z : Z) : string := NilZero.string_of_int (Z.to_int z).

Definition hex_digit (upper : bool) (n : nat) : ascii :=
  if Nat.ltb n 10 then ascii_of_nat (48 + n)
  else ascii_of_nat ((if upper then 55 else 87) + n).

(** [contains needle hay]: [needle] occurs in [hay]. *)
Definition contains (needle hay : string) : Prop :=
  exists pre post, hay = pre ++ needle ++ post.

(** [cut c s] splits [s] at the first [c]; the second component is [None]
    when [c] does not occur. *)
Fixpoint cut (c : ascii) (s : string) : string * option string :=
  match s with
  | "" => ("", None)
  | String a rest =>
      if Ascii.eqb a c then ("", Some rest)
      else let (h, t) := cut c rest in (String a h, t)
  end.

(** [pieces c s] splits [s] at every [c]. *)
Fixpoint pieces (c : ascii) (s : string) : list string :=
  match s with
  | "" => [""]
  | String a rest =>
      if Ascii.eqb a c then "" :: pieces c rest
      else match pieces c rest with
           | h :: t => String a h :: t
           | [] => [String a ""]
           end
  end.

Definition nonempty (s : string) : bool :=
  match s with "" => false | _ => true end.

(** [absent c s]: the character [c] does not occur in [s]. *)
Fixpoint absent (c : ascii) (s : string) : bool :=
  match s with
  | "" => true
  | String a rest => negb (Ascii.eqb a c) && absent c rest
  end.



End Text.

(** ** JavaScript values *)

(** Numbers.  The adapters only print numbers and test them for truthiness,
    so a number is carried by what those two operations see: an integer in
    the safe range by its value ([-0] and [0] print and test alike), any other
    finite number by its [Number::toString] text.  Arguments arrive as JSON,
    which has no NaN and no infinities. *)
Inductive Number : Type :=
| NInt (z : Z)
| NFrac (text : string).

#[warnings="-register-all"]
Inductive JSValue : Type :=
| JUndefined
| JNull
| JBool (b : bool)
| JNum (n : Number)
| JStr (s : string)
| JArr (items : list JSValue)
| JObj (props : list (string * JSValue)).

(** An object literal: its own properties in insertion order. *)
Definition Obj : Type := list (string * JSValue).

(** What a [throw] carries: an [Error] instance (of any subclass) with its
    message, or any other value. *)
Inductive Thrown : Type :=
| ErrorObject (name message : string)
| ThrownValue (v : JSValue).

(** The outcome of evaluating a piece of code. *)
Inductive Completion (A : Type) : Type :=
| Normal (a : A)
| Abrupt (e : Thrown).
Arguments Normal {A} a.
Arguments Abrupt {A} e.

#[global] Instance Monad_Completion : Monad Completion :=
  {| ret := fun _ a => Normal a;
     bind := fun _ _ c k => match c with Normal a => k a | Abrupt e => Abrupt e end |}.

Definition TypeError (message : string) : Thrown := ErrorObject "TypeError" message.

(** [new Error(message)]: an absent message leaves the empty one of the
    prototype. *)
Definition new_Error (message : option string) : Thrown :=
  ErrorObject "Error" (match message with Some m => m | None => "" end).

Module JS.

Definition Number_toString (n : Number) : string :=
  match n with
  | NInt z => Text.decimal z
  | NFrac text => text
  end.

(** [ToBoolean]: what an [if (x)] tests. *)
Definition ToBoolean (v : JSValue) : bool :=
  match v with
  | JUndefined | JNull => false
  | JBool b => b
  | JNum (NInt z) => negb (Z.eqb z 0)
  | JNum (NFrac _) => true
  | JStr s => Text.nonempty s
  | JArr _ | JObj _ => true
  end.

Fixpoint has_key (k : string) (o : Obj) : bool :=
  match o with
  | [] => false
  | (k', _) :: rest => String.eqb k k' || has_key k rest
  end.

(** Property lookup on an object literal; a missing property reads as
    [undefined]. *)
Fixpoint obj_get (o : Obj) (k : string) : JSValue :=
  match o with
  | [] => JUndefined
  | (k', v) :: rest => if String.eqb k k' then v else obj_get rest k
  end.

(** [ToString], the conversion behind template literals and behind
    [URLSearchParams.append].  An array joins its elements with commas; a
    plain object prints as [[object Object]] unless it shadows [toString]
    with one of its own properties, which (coming from JSON) cannot be
    called, so the conversion throws. *)
Fixpoint ToString (v : JSValue) : Completion string :=
  match v with
  | JUndefined => Normal "undefined"
  | JNull => Normal "null"
  | JBool true => Normal "true"
  | JBool false => Normal "false"
  | JNum n => Normal (Number_toString n)
  | JStr s => Normal s
  | JArr items =>
      let fix elements (l : list JSValue) : Completion (list string) :=
        match l with
        | [] => Normal []
        | x :: rest =>
            match (match x with
                   | JUndefined | JNull => Normal ""
                   | _ => ToString x
                   end) with
            | Normal s =>
                match elements rest with
                | Normal ss => Normal (s :: ss)
                | Abrupt e => Abrupt e
                end
            | Abrupt e => Abrupt e
            end
        end in
      match elements items with
      | Normal ss => Normal (Text.join "," ss)
      | Abrupt e => Abrupt e
      end
  | JObj props =>
      if has_key "toString" props
      then Abrupt (TypeError "Cannot convert object to primitive value")
      else Normal "[object Object]"
  end.

(** The method call [x.toString()]. *)
Definition toString (x : JSValue) : Completion string :=
  match x with
  | JUndefined =>
      Abrupt (TypeError "Cannot read properties of undefined (reading 'toString')")
  | JNull =>
      Abrupt (TypeError "Cannot read properties of null (reading 'toString')")
  | JObj props =>
      if has_key "toString" props
      then Abrupt (TypeError "toString is not a function")
      else Normal "[object Object]"
  | _ => ToString x
  end.

(** The property read [x.name] for a data property [name] that no prototype
    defines ([address], [message]). *)
Definition Get (x : JSValue) (name : string) : Completion JSValue :=
  match x with
  | JUndefined =>
      Abrupt (TypeError ("Cannot read properties of undefined (reading '" ++ name ++ "')"))
  | JNull =>
      Abrupt (TypeError ("Cannot read properties of null (reading '" ++ name ++ "')"))
  | JObj props => Normal (obj_get props name)
  | _ => Normal JUndefined
  end.

(** A destructured parameter with a default value: the default applies
    when the property reads as [undefined]. *)
Definition or_default (v : JSValue) (d : JSValue) : JSValue :=
  match v with
  | JUndefined => d
  | _ => v
  end.

(** [QuoteJSONString] on the bytes of a string. *)
Definition quote_char (c : ascii) : string :=
  let n := nat_of_ascii c in
  if Nat.eqb n 34 then String Text.backslash (String Text.dquote "")
  else if Nat.eqb n 92 then String Text.backslash (String Text.backslash "")
  else if Nat.eqb n 8 then String Text.backslash "b"
  else if Nat.eqb n 12 then String Text.backslash "f"
  else if Nat.eqb n 10 then String Text.backslash "n"
  else if Nat.eqb n 13 then String Text.backslash "r"
  else if Nat.eqb n 9 then String Text.backslash "t"
  else if Nat.ltb n 32 then
    String Text.backslash
      ("u00" ++ String (Text.hex_digit false (n / 16))
                  (String (Text.hex_digit false (n mod 16)) ""))
  else String c "".

Fixpoint quote_chars (s : string) : string :=
  match s with
  | "" => ""
  | String c rest => quote_char c ++ quote_chars rest
  end.

Definition QuoteJSONString (s : string) : string :=
  String Text.dquote (quote_chars s ++ String Text.dquote "").

(** [JSON.stringify(v)] with no replacer and no indentation.  The result is
    [None] where JavaScript gives [undefined].  A property whose value is
    [undefined] is left out of an object; an [undefined] array element
    prints as [null]. *)
Fixpoint JSON_stringify (v : JSValue) : option string :=
  match v with
  | JUndefined => None
  | JNull => Some "null"
  | JBool true => Some "true"
  | JBool false => Some "false"
  | JNum n => Some (Number_toString n)
  | JStr s => Some (QuoteJSONString s)
  | JArr items =>
      let fix elements (l : list JSValue) : list string :=
        match l with
        | [] => []
        | x :: rest =>
            match JSON_stringify x with
            | Some s => s
            | None => "null"
            end :: elements rest
        end in
      Some ("[" ++ Text.join "," (elements items) ++ "]")
  | JObj props =>
      let fix members (l : list (string * JSValue)) : list string :=
        match l with
        | [] => []
        | (k, x) :: rest =>
            match JSON_stringify x with
            | Some s => (QuoteJSONString k ++ ":" ++ s) :: members rest
            | None => members rest
            end
        end in
      Some ("{" ++ Text.join "," (members props) ++ "}")
  end.

(** A template literal slot holding the result of [JSON.stringify]. *)
Definition template_optional (s : option string) : string :=
  match s with
  | Some s => s
  | None => "undefined"
  end.

End JS.

(** ** Platform objects *)

(** The [application/x-www-form-urlencoded] serializer behind
    [URLSearchParams]: letters, digits and [* - . _] stay, a space becomes
    [+], every other byte becomes [%XX] in upper-case hexadecimal. *)
Module FormUrlencoded.

Definition unreserved (c : ascii) : bool :=
  let n := nat_of_ascii c in
  (Nat.leb 48 n && Nat.leb n 57) || (Nat.leb 65 n && Nat.leb n 90)
  || (Nat.leb 97 n && Nat.leb n 122)
  || Nat.eqb n 42 || Nat.eqb n 45 || Nat.eqb n 46 || Nat.eqb n 95.

Definition encode_byte (c : ascii) : string :=
  let n := nat_of_ascii c in
  if unreserved c then String c ""
  else if Nat.eqb n 32 then "+"
  else String "%" (String (Text.hex_digit true (n / 16))
                     (String (Text.hex_digit true (n mod 16)) "")).

Fixpoint encode (s : string) : string :=
  match s with
  | "" => ""
  | String c rest => encode_byte c ++ encode rest
  end.

Definition encode_pair (p : string * string) : string :=
  encode (fst p) ++ "=" ++ encode (snd p).

Definition serialize (ps : list (string * string)) : string :=
  Text.join "&" (map encode_pair ps).

(** Strings made of the bytes the encoder leaves alone. *)
Fixpoint plain (s : string) : bool :=
  match s with
  | "" => true
  | String c rest => unreserved c && plain rest
  end.

(** The four delimiters of an address. *)
Definition delimiter (c : ascii) : bool :=
  Ascii.eqb c "&" || Ascii.eqb c "=" || Ascii.eqb c "?" || Ascii.eqb c "#".

Definition encoded_pair (p : string * string) : string * string :=
  (encode (fst p), encode (snd p)).

End FormUrlencoded.

(** [URLSearchParams]: the list of name-value pairs, and the statements the
    adapters run on it.  [Append name value] is
    [params.append(name, value)], where the value conversion may throw;
    [If cond s] is [if (cond) s]. *)
Module URLSearchParams.

Definition t : Type := list (string * string).

Inductive Stmt : Type :=
| Append (name : string) (value : Completion string)
| If (cond : JSValue) (body : Stmt).

(** [append(name, v)] converts [v] with [ToString]. *)
Definition append (name : string) (v : JSValue) : Stmt :=
  Append name (JS.ToString v).

Fixpoint exec (s : Stmt) (ps : t) : Completion t :=
  match s with
  | Append name value => v <- value ;; ret (ps ++ [(name, v)])%list
  | If cond body => if JS.ToBoolean cond then exec body ps else ret ps
  end.

Fixpoint exec_all (stmts : list Stmt) (ps : t) : Completion t :=
  match stmts with
  | [] => ret ps
  | s :: rest => ps' <- exec s ps ;; exec_all rest ps'
  end.

Definition toString (ps : t) : string := FormUrlencoded.serialize ps.

(** The pair a statement appends, if its guards let it run. *)
Fixpoint fire (s : Stmt) : option (string * Completion string) :=
  match s with
  | Append name value => Some (name, value)
  | If cond body => if JS.ToBoolean cond then fire body else None
  end.

Definition fired (stmts : list Stmt) : list (string * Completion string) :=
  flat_map (fun s => match fire s with Some p => [p] | None => [] end) stmts.

Definition settled (p : string * string) : string * Completion string :=
  (fst p, Normal (snd p)).

(** The name a statement appends under. *)
Fixpoint stmt_name (s : Stmt) : string :=
  match s with
  | Append name _ => name
  | If _ body => stmt_name body
  end.

(** The values appended under the name [k], in order, before they are
    known to have converted. *)
Fixpoint values_named (k : string) (stmts : list Stmt) : list (Completion string) :=
  match stmts with
  | [] => []
  | s :: rest =>
      (if String.eqb (stmt_name s) k
       then match fire s with Some p => [snd p] | None => [] end
       else [])
      ++ values_named k rest
  end.

Definition names_plain (stmts : list Stmt) : bool :=
  forallb (fun s => FormUrlencoded.plain (stmt_name s)) stmts.

End URLSearchParams.

(** [URL]: the parsed address.  The parser splits off the fragment and the
    query; scheme, host and path are kept as written (every base address in
    the repository is already in normal form; for the one path built from an
    argument, in [get_place_details], the path normalisation of the platform
    is outside the model). *)
Module URL.

Record t : Type := mk {
  path_part : string;
  search : option string;
  hash : option string
}.

Definition new (input : string) : t :=
  let (before_hash, fragment) := Text.cut "#" input in
  let (path, query) := Text.cut "?" before_hash in
  {| path_part := path; search := query; hash := fragment |}.

(** The setter [url.search = value]: an empty value removes the query, a
    leading question mark is dropped.  The values it receives here are
    form-urlencoded, which the query encoder leaves as they are. *)
Definition set_search (u : t) (value : string) : t :=
  match value with
  | "" => {| path_part := path_part u; search := None; hash := hash u |}
  | String c rest =>
      {| path_part := path_part u;
         search := Some (if Ascii.eqb c "?" then rest else value);
         hash := hash u |}
  end.

(** [url.toString()]. *)
Definition href (u : t) : string :=
  path_part u
  ++ match search u with Some q => "?" ++ q | None => "" end
  ++ match hash u with Some f => "#" ++ f | None => "" end.

(** [const url = new URL(base); <stmts on url.searchParams>; url.toString()]:
    the parameter list starts empty and every update writes its
    serialisation back as the query. *)
Definition with_params (base : string) (stmts : list URLSearchParams.Stmt)
  : Completion string :=
  ps <- URLSearchParams.exec_all stmts [] ;;
  ret (href (set_search (new base) (URLSearchParams.toString ps))).

(** What a server reads from the address: the text between the first
    question mark and the fragment, split at [&] and at the first [=] of
    each piece, as written on the wire (percent-encoded). *)
Definition query (address : string) : string :=
  match snd (Text.cut "?" (fst (Text.cut "#" address))) with
  | Some q => q
  | None => ""
  end.

Definition query_params (address : string) : list (string * string) :=
  map (fun piece =>
         let (name, value) := Text.cut "=" piece in
         (name, match value with Some v => v | None => "" end))
      (filter Text.nonempty (Text.pieces "&" (query address))).

End URL.

(** ** [fetch] *)

Inductive Method : Type := GET | POST.

(** The arguments of one [fetch(url, { method, headers, body })] call. *)
Record Request : Type := {
  method : Method;
  url : string;
  headers : list (string * string);
  body : option string
}.

(** The [Response] interface as the adapters use it: the status line and the
    three body readers, each of which may reject. *)
Record Response : Type := {
  status : Z;
  statusText : string;
  json : Completion JSValue;
  text : Completion string;
  buffer : Completion (list ascii)
}.

(** [response.ok]: the status is in the range 200-299. *)
Definition ok (r : Response) : bool :=
  Z.leb 200 (status r) && Z.leb (status r) 299.

Inductive FetchResult : Type :=
| Rejects (e : Thrown)
| Responds (r : Response).

(** The upstream service and the network in front of it. *)
Definition Network : Type := Request -> FetchResult.

(** What an [executeFunction] returns: a JavaScript value, or a [Buffer] of
    image bytes. *)
Inductive Result : Type :=
| Data (v : JSValue)
| Image (bytes : list ascii).

(** ** Execution *)

(** What a run leaves behind: the [fetch] calls made and the lines written
    with [console.error], both in order. *)
Record Trace : Type := {
  requests : list Request;
  console : list (string * Thrown)
}.

Definition no_trace : Trace := {| requests := []; console := [] |}.

(** An asynchronous function body: it reads the network, extends the trace
    and completes normally or abruptly (the promise resolves or rejects). *)
Definition Exec (A : Type) : Type := Network -> Trace -> Completion A * Trace.

#[global] Instance Monad_Exec : Monad Exec :=
  {| ret := fun _ a => fun _ tr => (Normal a, tr);
     bind := fun _ _ c k => fun net tr =>
       match c net tr with
       | (Normal a, tr') => k a net tr'
       | (Abrupt e, tr') => (Abrupt e, tr')
       end |}.

Definition lift {A} (c : Completion A) : Exec A := fun _ tr => (c, tr).

Definition throw {A} (e : Thrown) : Exec A := fun _ tr => (Abrupt e, tr).

Definition try_catch {A} (block : Exec A) (handler : Thrown -> Exec A) : Exec A :=
  fun net tr =>
    match block net tr with
    | (Normal a, tr') => (Normal a, tr')
    | (Abrupt e, tr') => handler e net tr'
    end.

Definition fetch (req : Request) : Exec Response :=
  fun net tr =>
    let tr' := {| requests := (requests tr ++ [req])%list; console := console tr |} in
    match net req with
    | Rejects e => (Abrupt e, tr')
    | Responds r => (Normal r, tr')
    end.

Definition console_error (label : string) (e : Thrown) : Exec unit :=
  fun _ tr =>
    (Normal tt, {| requests := requests tr; console := (console tr ++ [(label, e)])%list |}).

(** Running an [executeFunction] from an empty trace. *)
Definition run {A} (c : Exec A) (net : Network) : Completion A * Trace := c net no_trace.

(** ** The three function bodies the adapters repeat *)

Definition error_envelope (message : string) : JSValue :=
  JObj [("error", JStr message)].

(** [error instanceof Error ? error.message : JSON.stringify(error)], placed
    in a template literal. *)
Definition describe (error : Thrown) : string :=
  match error with
  | ErrorObject _ message => message
  | ThrownValue v => JS.template_optional (JS.JSON_stringify v)
  end.

(** [error.message], placed in a template literal. *)
Definition message_of (error : Thrown) : Completion string :=
  match error with
  | ErrorObject _ message => Normal message
  | ThrownValue v => m <- JS.Get v "message" ;; JS.ToString m
  end.

(** The body of every adapter that decodes the response with
    [response.json()]; [build] is what the function does inside [try] before
    it calls [fetch]. *)
Definition json_adapter (label prefix : string) (build : Completion Request)
  : Exec Result :=
  try_catch
    (req <- lift build ;;
     response <- fetch req ;;
     if negb (ok response) then
       errorData <- lift (json response) ;;
       throw (new_Error (JS.JSON_stringify errorData))
     else
       data <- lift (json response) ;;
       ret (Data data))
    (fun error =>
       console_error label error ;;
       ret (Data (error_envelope (prefix ++ describe error)))).

(** The body of [get_heatmap_tiles], which reads the response with
    [response.text()] on both paths. *)
Definition text_adapter (label prefix : string) (build : Completion Request)
  : Exec Result :=
  try_catch
    (req <- lift build ;;
     response <- fetch req ;;
     if negb (ok response) then
       errorData <- lift (text response) ;;
       throw (new_Error (Some errorData))
     else
       data <- lift (text response) ;;
       ret (Data (JStr data)))
    (fun error =>
       console_error label error ;;
       ret (Data (error_envelope (prefix ++ describe error)))).

(** The body of the two image adapters: the handler logs and throws again.
    [status_message] is the text of the error raised on a status outside
    200-299. *)
Definition binary_adapter (label prefix : string)
  (status_message : Response -> string) (build : Completion Request)
  : Exec Result :=
  try_catch
    (req <- lift build ;;
     response <- fetch req ;;
     if negb (ok response) then
       throw (new_Error (Some (status_message response)))
     else
       imageBuffer <- lift (buffer response) ;;
       ret (Image imageBuffer))
    (fun error =>
       console_error label error ;;
       m <- lift (message_of error) ;;
       throw (new_Error (Some (prefix ++ m)))).

(** ** The adapters *)

(** [process.env.GOOGLE_MAPS_PLATFORM_API_KEY]: a string, or [undefined]
    when the variable is not set. *)
Definition ApiKey : Type := option string.

Definition key_value (apiKey : ApiKey) : JSValue :=
  match apiKey with
  | Some k => JStr k
  | None => JUndefined
  end.

(** The key in a template literal or as a header value. *)
Definition key_text (apiKey : ApiKey) : string :=
  match apiKey with
  | Some k => k
  | None => "undefined"
  end.

Module Tools.

Import URLSearchParams.

Definition arg (args : Obj) (name : string) : JSValue := JS.obj_get args name.

Definition accept_json : list (string * string) := [("Accept", "application/json")].
Definition content_json : list (string * string) := [("Content-Type", "application/json")].

Definition get_request (address : string) (hs : list (string * string)) : Request :=
  {| method := GET; url := address; headers := hs; body := None |}.

Definition post_request (address : string) (hs : list (string * string))
  (payload : JSValue) : Request :=
  {| method := POST; url := address; headers := hs;
     body := JS.JSON_stringify payload |}.

(** *** directions.js: get_directions *)

Definition get_directions_request (apiKey : ApiKey) (args : Obj) : Completion Request :=
  let origin := arg args "origin" in
  let destination := arg args "destination" in
  let mode := JS.or_default (arg args "mode") (JStr "driving") in
  let language := JS.or_default (arg args "language") (JStr "en") in
  let units := JS.or_default (arg args "units") (JStr "metric") in
  let departure_time := arg args "departure_time" in
  let arrival_time := arg args "arrival_time" in
  let alternatives := JS.or_default (arg args "alternatives") (JBool false) in
  let avoid := arg args "avoid" in
  let waypoints := arg args "waypoints" in
  let region := arg args "region" in
  let traffic_model := JS.or_default (arg args "traffic_model") (JStr "best_guess") in
  address <- URL.with_params "https://www.googleapis.com/maps/api/directions/json"
    [ append "origin" origin;
      append "destination" destination;
      append "mode" mode;
      append "language" language;
      append "units" units;
      If departure_time (append "departure_time" departure_time);
      If arrival_time (append "arrival_time" arrival_time);
      If alternatives (append "alternatives" alternatives);
      If avoid (append "avoid" avoid);
      If waypoints (append "waypoints" waypoints);
      If region (append "region" region);
      If traffic_model (append "traffic_model" traffic_model);
      append "key" (key_value apiKey) ] ;;
  ret (get_request address accept_json).

Definition get_directions (apiKey : ApiKey) (args : Obj) : Exec Result :=
  json_adapter "Error fetching directions:"
    "An error occurred while fetching directions: "
    (get_directions_request apiKey args).

(** *** street-view.js: get_street_view *)

Definition get_street_view_request (apiKey : ApiKey) (args : Obj) : Completion Request :=
  let size := arg args "size" in
  let fov := JS.or_default (arg args "fov") (JNum (NInt 90)) in
  let heading := arg args "heading" in
  let location := arg args "location" in
  let pano := arg args "pano" in
  let pitch := JS.or_default (arg args "pitch") (JNum (NInt 0)) in
  let radius := JS.or_default (arg args "radius") (JNum (NInt 50)) in
  let return_error_code := JS.or_default (arg args "return_error_code") (JBool false) in
  let signature := arg args "signature" in
  let source := arg args "source" in
  address <- URL.with_params "https://www.googleapis.com/maps/api/streetview"
    [ append "size" size;
      If fov (append "fov" fov);
      If heading (append "heading" heading);
      If location (append "location" location);
      If pano (append "pano" pano);
      If pitch (append "pitch" pitch);
      If radius (append "radius" radius);
      If return_error_code (append "return_error_code" return_error_code);
      If signature (append "signature" signature);
      If source (append "source" source);
      append "key" (key_value apiKey) ] ;;
  ret (get_request address [("Accept", "image/*")]).

Definition get_street_view_status_message (response : Response) : string :=
  "HTTP error! status: " ++ Text.decimal (status response).

Definition get_street_view (apiKey : ApiKey) (args : Obj) : Exec Result :=
  binary_adapter "Error retrieving Street View image:"
    "An error occurred while retrieving the Street View image: "
    get_street_view_status_message
    (get_street_view_request apiKey args).

(** *** get-a-route-matrix.js: get_route_matrix *)

Definition get_route_matrix_request (apiKey : ApiKey) (args : Obj) : Completion Request :=
  let origins := arg args "origins" in
  let destinations := arg args "destinations" in
  let travelMode := JS.or_default (arg args "travelMode") (JStr "DRIVE") in
  let routingPreference :=
    JS.or_default (arg args "routingPreference") (JStr "TRAFFIC_AWARE") in
  let body := JObj [ ("origins", origins);
                     ("destinations", destinations);
                     ("travelMode", travelMode);
                     ("routingPreference", routingPreference) ] in
  ret (post_request "https://routes.googleapis.com/distanceMatrix/v2:computeRouteMatrix"
         [ ("X-Goog-FieldMask", "*");
           ("Content-Type", "application/json");
           ("X-Goog-Api-Key", key_text apiKey) ]
         body).

Definition get_route_matrix (apiKey : ApiKey) (args : Obj) : Exec Result :=
  json_adapter "Error getting route matrix:"
    "An error occurred while getting the route matrix: "
    (get_route_matrix_request apiKey args).

(** *** get-a-route-matrix.js, second function: get_place_photo *)

Definition get_place_photo_request (apiKey : ApiKey) (args : Obj) : Completion Request :=
  let photo_reference := arg args "photo_reference" in
  let maxheight := arg args "maxheight" in
  let maxwidth := arg args "maxwidth" in
  address <- URL.with_params "https://maps.googleapis.com/maps/api/place/photo"
    [ append "photo_reference" photo_reference;
      If maxheight (Append "maxheight" (JS.toString maxheight));
      If maxwidth (Append "maxwidth" (JS.toString maxwidth));
      append "key" (key_value apiKey) ] ;;
  ret (get_request address [("Accept", "image/*")]).

Definition get_place_photo_status_message (response : Response) : string :=
  "Error: " ++ Text.decimal (status response) ++ " " ++ statusText response.

Definition get_place_photo (apiKey : ApiKey) (args : Obj) : Exec Result :=
  binary_adapter "Error retrieving place photo:"
    "An error occurred while retrieving the place photo: "
    get_place_photo_status_message
    (get_place_photo_request apiKey args).

(** *** get-heatmap-tiles.js: get_heatmap_tiles *)

Definition get_heatmap_tiles_request (apiKey : ApiKey) (args : Obj) : Completion Request :=
  let mapType := arg args "mapType" in
  let x := arg args "x" in
  let y := arg args "y" in
  let zoom := arg args "zoom" in
  mapType' <- JS.ToString mapType ;;
  zoom' <- JS.ToString zoom ;;
  x' <- JS.ToString x ;;
  y' <- JS.ToString y ;;
  ret (get_request
         ("https://pollen.googleapis.com" ++ "/v1/mapTypes/" ++ mapType'
          ++ "/heatmapTiles/" ++ zoom' ++ "/" ++ x' ++ "/" ++ y'
          ++ "?key=" ++ key_text apiKey)
         []).

Definition get_heatmap_tiles (apiKey : ApiKey) (args : Obj) : Exec Result :=
  text_adapter "Error fetching heatmap tiles:"
    "An error occurred while fetching heatmap tiles: "
    (get_heatmap_tiles_request apiKey args).

(** *** get-heatmap-tiles.js, second function: compute_insights *)

Definition compute_insights_places_request (apiKey : ApiKey) (args : Obj)
  : Completion Request :=
  let insights := arg args "insights" in
  let filter := arg args "filter" in
  ret (post_request ("https://areainsights.googleapis.com" ++ "/v1:computeInsights")
         [ ("Content-Type", "application/json");
           ("X-Goog-Api-Key", key_text apiKey) ]
         (JObj [("insights", insights); ("filter", filter)])).

Definition compute_insights_places (apiKey : ApiKey) (args : Obj) : Exec Result :=
  json_adapter "Error computing insights:"
    "An error occurred while computing insights: "
    (compute_insights_places_request apiKey args).

(** *** The Places Aggregate adapter, also declared as compute_insights *)

Definition compute_insights_aggregate_request (apiKey : ApiKey) (args : Obj)
  : Completion Request :=
  let insights := arg args "insights" in
  let filter := arg args "filter" in
  let requestBody := JObj [("insights", insights); ("filter", filter)] in
  ret (post_request "https://areainsights.googleapis.com/v1:computeInsights"
         [ ("X-Goog-Api-Key", key_text apiKey);
           ("Content-Type", "application/json") ]
         requestBody).

Definition compute_insights_aggregate (apiKey : ApiKey) (args : Obj) : Exec Result :=
  json_adapter "Error computing insights:"
    "An error occurred while computing insights: "
    (compute_insights_aggregate_request apiKey args).

(** *** history-hours.js: get_hourly_weather *)

Definition get_hourly_weather_request (apiKey : ApiKey) (args : Obj) : Completion Request :=
  let latitude := arg args "latitude" in
  let longitude := arg args "longitude" in
  let unitsSystem := JS.or_default (arg args "unitsSystem") (JStr "METRIC") in
  let pageSize := JS.or_default (arg args "pageSize") (JNum (NInt 24)) in
  let pageToken := arg args "pageToken" in
  let hours := JS.or_default (arg args "hours") (JNum (NInt 24)) in
  let languageCode := JS.or_default (arg args "languageCode") (JStr "en") in
  address <- URL.with_params "https://weather.googleapis.com/v1/history/hours:lookup"
    [ append "location.latitude" latitude;
      append "location.longitude" longitude;
      append "unitsSystem" unitsSystem;
      Append "pageSize" (JS.toString pageSize);
      If pageToken (append "pageToken" pageToken);
      Append "hours" (JS.toString hours);
      append "languageCode" languageCode;
      append "key" (key_value apiKey) ] ;;
  ret (get_request address content_json).

Definition get_hourly_weather (apiKey : ApiKey) (args : Obj) : Exec Result :=
  json_adapter "Error retrieving hourly historical weather data:"
    "An error occurred while retrieving weather data: "
    (get_hourly_weather_request apiKey args).

(** *** geolocate.js: geolocate *)

Definition geolocate_request (apiKey : ApiKey) (args : Obj) : Completion Request :=
  let cellTowers := arg args "cellTowers" in
  let wifiAccessPoints := arg args "wifiAccessPoints" in
  let considerIp := JS.or_default (arg args "considerIp") (JBool false) in
  let requestBody := JObj [ ("considerIp", considerIp);
                            ("cellTowers", cellTowers);
                            ("wifiAccessPoints", wifiAccessPoints) ] in
  ret (post_request
         ("https://www.googleapis.com" ++ "/geolocation/v1/geolocate?key=" ++ key_text apiKey)
         [ ("Content-Type", "application/json"); ("Accept", "application/json") ]
         requestBody).

Definition geolocate (apiKey : ApiKey) (args : Obj) : Exec Result :=
  json_adapter "Error geolocating:"
    "An error occurred while geolocating: "
    (geolocate_request apiKey args).

(** *** get-data-layers.js: get_data_layers *)

Definition get_data_layers_request (apiKey : ApiKey) (args : Obj) : Completion Request :=
  let latitude := arg args "latitude" in
  let longitude := arg args "longitude" in
  let radiusMeters := JS.or_default (arg args "radiusMeters") (JNum (NInt 100)) in
  let view := JS.or_default (arg args "view") (JStr "FULL_LAYERS") in
  let requiredQuality := JS.or_default (arg args "requiredQuality") (JStr "HIGH") in
  let pixelSizeMeters := JS.or_default (arg args "pixelSizeMeters") (JNum (NFrac "0.5")) in
  address <- URL.with_params "https://solar.googleapis.com/v1/dataLayers:get"
    [ append "location.latitude" latitude;
      append "location.longitude" longitude;
      Append "radiusMeters" (JS.toString radiusMeters);
      append "view" view;
      append "requiredQuality" requiredQuality;
      Append "pixelSizeMeters" (JS.toString pixelSizeMeters);
      append "key" (key_value apiKey) ] ;;
  ret (get_request address []).

Definition get_data_layers (apiKey : ApiKey) (args : Obj) : Exec Result :=
  json_adapter "Error getting data layers:"
    "An error occurred while getting data layers: "
    (get_data_layers_request apiKey args).

(** *** get-place-details.js: get_place_details *)

Definition get_place_details_request (apiKey : ApiKey) (args : Obj) : Completion Request :=
  let placeId := arg args "placeId" in
  let languageCode := arg args "languageCode" in
  let regionCode := arg args "regionCode" in
  let sessionToken := arg args "sessionToken" in
  placeId' <- JS.ToString placeId ;;
  address <- URL.with_params ("https://places.googleapis.com/v1/places" ++ "/" ++ placeId')
    [ If languageCode (append "languageCode" languageCode);
      If regionCode (append "regionCode" regionCode);
      If sessionToken (append "sessionToken" sessionToken) ] ;;
  ret (get_request address
         [ ("X-Goog-Api-Key", key_text apiKey);
           ("X-Goog-FieldMask", "*");
           ("Content-Type", "application/json") ]).

Definition get_place_details (apiKey : ApiKey) (args : Obj) : Exec Result :=
  json_adapter "Error getting place details:"
    "An error occurred while getting place details: "
    (get_place_details_request apiKey args).

(** *** elevation.js: get_elevation *)

Definition get_elevation_request (apiKey : ApiKey) (args : Obj) : Completion Request :=
  let locations := arg args "locations" in
  let path := arg args "path" in
  let samples := arg args "samples" in
  address <- URL.with_params "https://maps.googleapis.com/maps/api/elevation/json"
    [ append "locations" locations;
      If path (append "path" path);
      If samples (Append "samples" (JS.toString samples));
      append "key" (key_value apiKey) ] ;;
  ret (get_request address accept_json).

Definition get_elevation (apiKey : ApiKey) (args : Obj) : Exec Result :=
  json_adapter "Error fetching elevation data:"
    "An error occurred while fetching elevation data: "
    (get_elevation_request apiKey args).

(** *** distance-matrix.js: distance_matrix *)

Definition distance_matrix_request (apiKey : ApiKey) (args : Obj) : Completion Request :=
  let origins := arg args "origins" in
  let destinations := arg args "destinations" in
  let mode := JS.or_default (arg args "mode") (JStr "driving") in
  let units := JS.or_default (arg args "units") (JStr "metric") in
  let language := JS.or_default (arg args "language") (JStr "en") in
  let departure_time := arg args "departure_time" in
  let arrival_time := arg args "arrival_time" in
  let avoid := arg args "avoid" in
  let region := JS.or_default (arg args "region") (JStr "en") in
  let traffic_model := JS.or_default (arg args "traffic_model") (JStr "best_guess") in
  let transit_mode := arg args "transit_mode" in
  let transit_routing_preference := arg args "transit_routing_preference" in
  address <- URL.with_params "https://maps.googleapis.com/maps/api/distancematrix/json"
    [ append "origins" origins;
      append "destinations" destinations;
      append "mode" mode;
      append "units" units;
      append "language" language;
      If departure_time (append "departure_time" departure_time);
      If arrival_time (append "arrival_time" arrival_time);
      If avoid (append "avoid" avoid);
      If region (append "region" region);
      If traffic_model (append "traffic_model" traffic_model);
      If transit_mode (append "transit_mode" transit_mode);
      If transit_routing_preference
        (append "transit_routing_preference" transit_routing_preference);
      append "key" (key_value apiKey) ] ;;
  ret (get_request address accept_json).

Definition distance_matrix (apiKey : ApiKey) (args : Obj) : Exec Result :=
  json_adapter "Error calculating distance matrix:"
    "An error occurred while calculating the distance matrix: "
    (distance_matrix_request apiKey args).

(** *** street-view-metadata.js: get_street_view_metadata *)

Definition get_street_view_metadata_request (apiKey : ApiKey) (args : Obj)
  : Completion Request :=
  let location := arg args "location" in
  let heading := arg args "heading" in
  let pano := arg args "pano" in
  let pitch := arg args "pitch" in
  let radius := JS.or_default (arg args "radius") (JNum (NInt 50)) in
  let return_error_code := JS.or_default (arg args "return_error_code") (JBool false) in
  let signature := arg args "signature" in
  let size := arg args "size" in
  let source := arg args "source" in
  address <- URL.with_params "https://www.googleapis.com/maps/api/streetview/metadata"
    [ append "location" location;
      If heading (append "heading" heading);
      If pano (append "pano" pano);
      If pitch (append "pitch" pitch);
      If radius (append "radius" radius);
      If return_error_code (append "return_error_code" return_error_code);
      If signature (append "signature" signature);
      If size (append "size" size);
      If source (append "source" source);
      append "key" (key_value apiKey) ] ;;
  ret (get_request address accept_json).

Definition get_street_view_metadata (apiKey : ApiKey) (args : Obj) : Exec Result :=
  json_adapter "Error retrieving Street View metadata:"
    "An error occurred while retrieving Street View metadata: "
    (get_street_view_metadata_request apiKey args).

(** *** autocomplete.js: autocomplete_places *)

Definition autocomplete_places_request (apiKey : ApiKey) (args : Obj) : Completion Request :=
  let input := arg args "input" in
  let sessiontoken := arg args "sessiontoken" in
  let components := arg args "components" in
  let strictbounds := arg args "strictbounds" in
  let offset := arg args "offset" in
  let origin := arg args "origin" in
  let location := arg args "location" in
  let radius := arg args "radius" in
  let types := arg args "types" in
  let language := JS.or_default (arg args "language") (JStr "en") in
  let region := JS.or_default (arg args "region") (JStr "en") in
  address <- URL.with_params "https://maps.googleapis.com/maps/api/place/autocomplete/json"
    [ append "input" input;
      If sessiontoken (append "sessiontoken" sessiontoken);
      If components (append "components" components);
      If strictbounds (append "strictbounds" strictbounds);
      If offset (append "offset" offset);
      If origin (append "origin" origin);
      If location (append "location" location);
      If radius (append "radius" radius);
      If types (append "types" types);
      If language (append "language" language);
      If region (append "region" region);
      append "key" (key_value apiKey) ] ;;
  ret (get_request address accept_json).

Definition autocomplete_places (apiKey : ApiKey) (args : Obj) : Exec Result :=
  json_adapter "Error performing autocomplete:"
    "An error occurred while performing autocomplete: "
    (autocomplete_places_request apiKey args).

(** *** get-forecast.js: get_forecast *)

Definition get_forecast_request (apiKey : ApiKey) (args : Obj) : Completion Request :=
  let longitude := arg args "longitude" in
  let latitude := arg args "latitude" in
  let days := arg args "days" in
  address <- URL.with_params "https://pollen.googleapis.com/v1/forecast:lookup"
    [ append "location.longitude" longitude;
      append "location.latitude" latitude;
      Append "days" (JS.toString days);
      If (key_value apiKey) (append "key" (key_value apiKey)) ] ;;
  ret (get_request address content_json).

Definition get_forecast (apiKey : ApiKey) (args : Obj) : Exec Result :=
  json_adapter "Error getting pollen forecast:"
    "An error occurred while getting the pollen forecast: "
    (get_forecast_request apiKey args).

(** *** get_route *)

(** The request body is assembled before the [try] block, so the two
    property reads are not covered by the handler. *)
Definition get_route_requestBody (args : Obj) : Completion JSValue :=
  let origin := arg args "origin" in
  let destination := arg args "destination" in
  origin_address <- JS.Get origin "address" ;;
  destination_address <- JS.Get destination "address" ;;
  ret (JObj [ ("origin", JObj [("address", origin_address)]);
              ("destination", JObj [("address", destination_address)]) ]).

Definition get_route_request (apiKey : ApiKey) (requestBody : JSValue)
  : Completion Request :=
  ret (post_request ("https://routes.googleapis.com" ++ "/directions/v2:computeRoutes")
         [ ("X-Goog-FieldMask", "*");
           ("Content-Type", "application/json");
           ("X-Goog-Api-Key", key_text apiKey) ]
         requestBody).

Definition get_route (apiKey : ApiKey) (args : Obj) : Exec Result :=
  requestBody <- lift (get_route_requestBody args) ;;
  json_adapter "Error getting route:"
    "An error occurred while getting the route: "
    (get_route_request apiKey requestBody).

(** *** get_building_insights *)

Definition get_building_insights_request (apiKey : ApiKey) (args : Obj)
  : Completion Request :=
  let latitude := arg args "latitude" in
  let longitude := arg args "longitude" in
  address <- URL.with_params "https://solar.googleapis.com/v1/buildingInsights:findClosest"
    [ append "location.latitude" latitude;
      append "location.longitude" longitude;
      append "requiredQuality" (JStr "HIGH");
      append "key" (key_value apiKey) ] ;;
  ret (get_request address []).

Definition get_building_insights (apiKey : ApiKey) (args : Obj) : Exec Result :=
  json_adapter "Error fetching building insights:"
    "An error occurred while fetching building insights: "
    (get_building_insights_request apiKey args).

(** *** render_video *)

Definition render_video_request (apiKey : ApiKey) (args : Obj) : Completion Request :=
  let address := arg args "address" in
  let requestBody := JObj [("address", address)] in
  ret (post_request
         ("https://www.googleapis.com" ++ "/v1/videos:renderVideo?key=" ++ key_text apiKey)
         content_json
         requestBody).

Definition render_video (apiKey : ApiKey) (args : Obj) : Exec Result :=
  json_adapter "Error rendering video:"
    "An error occurred while rendering the video: "
    (render_video_request apiKey args).

(** *** text_search_places *)

Definition text_search_places_request (apiKey : ApiKey) (args : Obj) : Completion Request :=
  let requestBody :=
    JObj [ ("textQuery", arg args "textQuery");
           ("includedType", arg args "includedType");
           ("languageCode", arg args "languageCode");
           ("locationBias", arg args "locationBias");
           ("locationRestriction", arg args "locationRestriction");
           ("evOptions", arg args "evOptions");
           ("minRating", arg args "minRating");
           ("openNow", arg args "openNow");
           ("pageSize", arg args "pageSize");
           ("pageToken", arg args "pageToken");
           ("priceLevels", arg args "priceLevels");
           ("rankPreference", arg args "rankPreference");
           ("regionCode", arg args "regionCode");
           ("strictTypeFiltering", arg args "strictTypeFiltering") ] in
  ret (post_request "https://places.googleapis.com/v1/places:searchText"
         [ ("Content-Type", "application/json");
           ("X-Goog-FieldMask", "*");
           ("X-Goog-Api-Key", key_text apiKey) ]
         requestBody).

Definition text_search_places (apiKey : ApiKey) (args : Obj) : Exec Result :=
  json_adapter "Error performing text search:"
    "An error occurred while performing the text search: "
    (text_search_places_request apiKey args).

(** *** get_video *)

(** The address handed to [fetch] is the serialised URL, which already
    carries [?videoId=...], followed by the text [?key=] and the key. *)
Definition get_video_request (apiKey : ApiKey) (args : Obj) : Completion Request :=
  let videoId := arg args "videoId" in
  address <- URL.with_params "https://aerialview.googleapis.com/v1/videos:lookupVideo"
    [ append "videoId" videoId ] ;;
  ret (get_request (address ++ "?key=" ++ key_text apiKey) content_json).

Definition get_video (apiKey : ApiKey) (args : Obj) : Exec Result :=
  json_adapter "Error retrieving video:"
    "An error occurred while retrieving the video: "
    (get_video_request apiKey args).

(** *** validate_address *)

Definition validate_address_request (apiKey : ApiKey) (args : Obj) : Completion Request :=
  let regionCode := arg args "regionCode" in
  let locality := arg args "locality" in
  let addressLines := arg args "addressLines" in
  let requestBody :=
    JObj [ ("address", JObj [ ("regionCode", regionCode);
                              ("locality", locality);
                              ("addressLines", addressLines) ]) ] in
  ret (post_request
         ("https://www.googleapis.com"
          ++ "/addressvalidation.googleapis.com/v1:validateAddress?key=" ++ key_text apiKey)
         content_json
         requestBody).

Definition validate_address (apiKey : ApiKey) (args : Obj) : Exec Result :=
  json_adapter "Error validating address:"
    "An error occurred while validating the address: "
    (validate_address_request apiKey args).

(** *** geocode_address *)

Definition geocode_address_request (apiKey : ApiKey) (args : Obj) : Completion Request :=
  let address := arg args "address" in
  let bounds := arg args "bounds" in
  let components := arg args "components" in
  let latlng := arg args "latlng" in
  let place_id := arg args "place_id" in
  let language := JS.or_default (arg args "language") (JStr "en") in
  let region := JS.or_default (arg args "region") (JStr "en") in
  target <- URL.with_params "https://www.googleapis.com/maps/api/geocode/json"
    [ append "address" address;
      If bounds (append "bounds" bounds);
      If components (append "components" components);
      If latlng (append "latlng" latlng);
      If place_id (append "place_id" place_id);
      append "language" language;
      append "region" region;
      append "key" (key_value apiKey) ] ;;
  ret (get_request target accept_json).

Definition geocode_address (apiKey : ApiKey) (args : Obj) : Exec Result :=
  json_adapter "Error geocoding address:"
    "An error occurred while geocoding the address: "
    (geocode_address_request apiKey args).

(** *** query_autocomplete *)

Definition query_autocomplete_request (apiKey : ApiKey) (args : Obj) : Completion Request :=
  let input := arg args "input" in
  let offset := arg args "offset" in
  let location := arg args "location" in
  let radius := arg args "radius" in
  let language := JS.or_default (arg args "language") (JStr "en") in
  address <- URL.with_params "https://www.googleapis.com/maps/api/place/queryautocomplete/json"
    [ append "input" input;
      If offset (append "offset" offset);
      If location (append "location" location);
      If radius (append "radius" radius);
      append "language" language;
      append "key" (key_value apiKey) ] ;;
  ret (get_request address accept_json).

Definition query_autocomplete (apiKey : ApiKey) (args : Obj) : Exec Result :=
  json_adapter "Error querying autocomplete:"
    "An error occurred while querying autocomplete: "
    (query_autocomplete_request apiKey args).

(** *** provide_validation_feedback *)

Definition provide_validation_feedback_request (apiKey : ApiKey) (args : Obj)
  : Completion Request :=
  let conclusion := arg args "conclusion" in
  let responseId := arg args "responseId" in
  ret {| method := POST;
         url := "https://addressvalidation.googleapis.com"
                ++ "/v1:provideValidationFeedback?key=" ++ key_text apiKey;
         headers := content_json;
         body := JS.JSON_stringify
                   (JObj [("conclusion", conclusion); ("responseId", responseId)]) |}.

Definition provide_validation_feedback (apiKey : ApiKey) (args : Obj) : Exec Result :=
  json_adapter "Error providing validation feedback:"
    "An error occurred while providing validation feedback: "
    (provide_validation_feedback_request apiKey args).

End Tools.

(** ** The tool table *)

(** The twenty-five adapters.  Two source files declare the name
    [compute_insights]; they are told apart here by the API their comment
    names. *)
Inductive Tool : Type :=
| autocomplete_places
| get_directions
| distance_matrix
| get_elevation
| geolocate
| get_route_matrix
| get_place_photo
| get_data_layers
| get_forecast
| get_heatmap_tiles
| compute_insights_places
| get_place_details
| get_hourly_weather
| get_street_view_metadata
| get_street_view
| get_route
| get_building_insights
| render_video
| text_search_places
| get_video
| validate_address
| geocode_address
| compute_insights_aggregate
| query_autocomplete
| provide_validation_feedback.

Definition all_tools : list Tool :=
  [ autocomplete_places; get_directions; distance_matrix; get_elevation; geolocate;
    get_route_matrix; get_place_photo; get_data_layers; get_forecast; get_heatmap_tiles;
    compute_insights_places; get_place_details; get_hourly_weather;
    get_street_view_metadata; get_street_view; get_route; get_building_insights;
    render_video; text_search_places; get_video; validate_address; geocode_address;
    compute_insights_aggregate; query_autocomplete; provide_validation_feedback ].

(** [apiTool.function] of each adapter. *)
Definition executeFunction (t : Tool) (apiKey : ApiKey) (args : Obj) : Exec Result :=
  match t with
  | autocomplete_places => Tools.autocomplete_places apiKey args
  | get_directions => Tools.get_directions apiKey args
  | distance_matrix => Tools.distance_matrix apiKey args
  | get_elevation => Tools.get_elevation apiKey args
  | geolocate => Tools.geolocate apiKey args
  | get_route_matrix => Tools.get_route_matrix apiKey args
  | get_place_photo => Tools.get_place_photo apiKey args
  | get_data_layers => Tools.get_data_layers apiKey args
  | get_forecast => Tools.get_forecast apiKey args
  | get_heatmap_tiles => Tools.get_heatmap_tiles apiKey args
  | compute_insights_places => Tools.compute_insights_places apiKey args
  | get_place_details => Tools.get_place_details apiKey args
  | get_hourly_weather => Tools.get_hourly_weather apiKey args
  | get_street_view_metadata => Tools.get_street_view_metadata apiKey args
  | get_street_view => Tools.get_street_view apiKey args
  | get_route => Tools.get_route apiKey args
  | get_building_insights => Tools.get_building_insights apiKey args
  | render_video => Tools.render_video apiKey args
  | text_search_places => Tools.text_search_places apiKey args
  | get_video => Tools.get_video apiKey args
  | validate_address => Tools.validate_address apiKey args
  | geocode_address => Tools.geocode_address apiKey args
  | compute_insights_aggregate => Tools.compute_insights_aggregate apiKey args
  | query_autocomplete => Tools.query_autocomplete apiKey args
  | provide_validation_feedback => Tools.provide_validation_feedback apiKey args
  end.

(** *** Declarations: [apiTool.definition.function] *)

Inductive JsonType : Type := TString | TNumber | TInteger | TBoolean | TObject | TArray.

Record Declaration : Type := {
  name : string;
  properties : list (string * JsonType);
  required : list string
}.

Definition declaration (t : Tool) : Declaration :=
  match t with
  | autocomplete_places =>
      {| name := "autocomplete_places";
         properties := [ ("input", TString); ("sessiontoken", TString);
                         ("components", TString); ("strictbounds", TBoolean);
                         ("offset", TInteger); ("origin", TString);
                         ("location", TString); ("radius", TInteger);
                         ("types", TString); ("language", TString);
                         ("region", TString) ];
         required := ["input"] |}
  | get_directions =>
      {| name := "get_directions";
         properties := [ ("origin", TString); ("destination", TString);
                         ("mode", TString); ("language", TString); ("units", TString);
                         ("departure_time", TNumber); ("arrival_time", TNumber);
                         ("alternatives", TBoolean); ("avoid", TString);
                         ("waypoints", TString); ("region", TString);
                         ("traffic_model", TString) ];
         required := ["origin"; "destination"] |}
  | distance_matrix =>
      {| name := "distance_matrix";
         properties := [ ("origins", TString); ("destinations", TString);
                         ("mode", TString); ("units", TString); ("language", TString);
                         ("departure_time", TNumber); ("arrival_time", TNumber);
                         ("avoid", TString); ("region", TString);
                         ("traffic_model", TString); ("transit_mode", TString);
                         ("transit_routing_preference", TString) ];
         required := ["origins"; "destinations"] |}
  | get_elevation =>
      {| name := "get_elevation";
         properties := [ ("locations", TString); ("path", TString); ("samples", TInteger) ];
         required := ["locations"] |}
  | geolocate =>
      {| name := "geolocate";
         properties := [ ("cellTowers", TArray); ("wifiAccessPoints", TArray);
                         ("considerIp", TBoolean) ];
         required := ["cellTowers"; "wifiAccessPoints"] |}
  | get_route_matrix =>
      {| name := "get_route_matrix";
         properties := [ ("origins", TArray); ("destinations", TArray);
                         ("travelMode", TString); ("routingPreference", TString) ];
         required := ["origins"; "destinations"] |}
  | get_place_photo =>
      {| name := "get_place_photo";
         properties := [ ("photo_reference", TString); ("maxheight", TInteger);
                         ("maxwidth", TInteger) ];
         required := ["photo_reference"] |}
  | get_data_layers =>
      {| name := "get_data_layers";
         properties := [ ("latitude", TNumber); ("longitude", TNumber);
                         ("radiusMeters", TInteger); ("view", TString);
                         ("requiredQuality", TString); ("pixelSizeMeters", TNumber) ];
         required := ["latitude"; "longitude"] |}
  | get_forecast =>
      {| name := "get_forecast";
         properties := [ ("longitude", TNumber); ("latitude", TNumber); ("days", TInteger) ];
         required := ["longitude"; "latitude"; "days"] |}
  | get_heatmap_tiles =>
      {| name := "get_heatmap_tiles";
         properties := [ ("mapType", TString); ("x", TInteger); ("y", TInteger);
                         ("zoom", TInteger) ];
         required := ["mapType"; "x"; "y"; "zoom"] |}
  | compute_insights_places =>
      {| name := "compute_insights";
         properties := [ ("insights", TArray); ("filter", TObject) ];
         required := ["insights"; "filter"] |}
  | get_place_details =>
      {| name := "get_place_details";
         properties := [ ("placeId", TString); ("languageCode", TString);
                         ("regionCode", TString); ("sessionToken", TString) ];
         required := ["placeId"] |}
  | get_hourly_weather =>
      {| name := "get_hourly_weather";
         properties := [ ("latitude", TNumber); ("longitude", TNumber);
                         ("unitsSystem", TString); ("pageSize", TInteger);
                         ("pageToken", TString); ("hours", TInteger);
                         ("languageCode", TString) ];
         required := ["latitude"; "longitude"] |}
  | get_street_view_metadata =>
      {| name := "get_street_view_metadata";
         properties := [ ("location", TString); ("heading", TNumber); ("pano", TString);
                         ("pitch", TNumber); ("radius", TNumber);
                         ("return_error_code", TBoolean); ("signature", TString);
                         ("size", TString); ("source", TString) ];
         required := ["location"] |}
  | get_street_view =>
      {| name := "get_street_view";
         properties := [ ("size", TString); ("fov", TNumber); ("heading", TNumber);
                         ("location", TString); ("pano", TString); ("pitch", TNumber);
                         ("radius", TNumber); ("return_error_code", TBoolean);
                         ("signature", TString); ("source", TString) ];
         required := ["size"] |}
  | get_route =>
      {| name := "get_route";
         properties := [ ("origin", TObject); ("destination", TObject) ];
         required := ["origin"; "destination"] |}
  | get_building_insights =>
      {| name := "get_building_insights";
         properties := [ ("latitude", TNumber); ("longitude", TNumber) ];
         required := ["latitude"; "longitude"] |}
  | render_video =>
      {| name := "render_video";
         properties := [ ("address", TString) ];
         required := ["address"] |}
  | text_search_places =>
      {| name := "text_search_places";
         properties := [ ("textQuery", TString); ("includedType", TString);
                         ("languageCode", TString); ("locationBias", TObject);
                         ("locationRestriction", TObject); ("evOptions", TObject);
                         ("minRating", TBoolean); ("openNow", TBoolean);
                         ("pageSize", TInteger); ("pageToken", TString);
                         ("priceLevels", TArray); ("rankPreference", TString);
                         ("regionCode", TString); ("strictTypeFiltering", TString) ];
         required := ["textQuery"] |}
  | get_video =>
      {| name := "get_video";
         properties := [ ("videoId", TString) ];
         required := ["videoId"] |}
  | validate_address =>
      {| name := "validate_address";
         properties := [ ("regionCode", TString); ("locality", TString);
                         ("addressLines", TArray) ];
         required := ["regionCode"; "locality"; "addressLines"] |}
  | geocode_address =>
      {| name := "geocode_address";
         properties := [ ("address", TString); ("bounds", TString);
                         ("components", TString); ("latlng", TString);
                         ("place_id", TString); ("language", TString);
                         ("region", TString) ];
         required := ["address"] |}
  | compute_insights_aggregate =>
      {| name := "compute_insights";
         properties := [ ("insights", TArray); ("filter", TObject) ];
         required := ["insights"; "filter"] |}
  | query_autocomplete =>
      {| name := "query_autocomplete";
         properties := [ ("input", TString); ("offset", TInteger); ("location", TString);
                         ("radius", TInteger); ("language", TString) ];
         required := ["input"] |}
  | provide_validation_feedback =>
      {| name := "provide_validation_feedback";
         properties := [ ("conclusion", TString); ("responseId", TString) ];
         required := ["conclusion"; "responseId"] |}
  end.

Definition mem (k : string) (l : list string) : bool := existsb (String.eqb k) l.

(** The declared parameters that are not required. *)
Definition optional_parameters (t : Tool) : list string :=
  filter (fun k => negb (mem k (required (declaration t))))
         (map fst (properties (declaration t))).

Definition has_type (ty : JsonType) (v : JSValue) : bool :=
  match ty, v with
  | TString, JStr _ => true
  | TNumber, JNum _ => true
  | TInteger, JNum (NInt _) => true
  | TBoolean, JBool _ => true
  | TObject, JObj _ => true
  | TArray, JArr _ => true
  | _, _ => false
  end.

(** The check the calling framework makes before it invokes an adapter:
    every required parameter is present and every declared parameter that is
    present has the declared type. *)
Definition conforms (t : Tool) (args : Obj) : bool :=
  forallb (fun p : string * JsonType =>
             match JS.obj_get args (fst p) with
             | JUndefined => negb (mem (fst p) (required (declaration t)))
             | v => has_type (snd p) v
             end)
          (properties (declaration t)).

(** *** Classification of the adapters, as read off their bodies *)

(** How the response body is read. *)
Inductive Decoding : Type := AsJson | AsText | AsBuffer.

Definition decoding (t : Tool) : Decoding :=
  match t with
  | get_street_view | get_place_photo => AsBuffer
  | get_heatmap_tiles => AsText
  | _ => AsJson
  end.

(** The two image adapters. *)
Definition binary (t : Tool) : bool :=
  match decoding t with AsBuffer => true | _ => false end.

(** Where the API key travels. *)
Inductive KeyPlacement : Type := KeyInQuery | KeyInHeader.

Definition key_placement (t : Tool) : KeyPlacement :=
  match t with
  | get_route_matrix | compute_insights_places | compute_insights_aggregate
  | get_place_details | get_route | text_search_places => KeyInHeader
  | _ => KeyInQuery
  end.

(** Where the optional parameters travel. *)
Inductive Transport : Type := InQuery | InBody.

Definition transport (t : Tool) : Transport :=
  match t with
  | geolocate | get_route_matrix | text_search_places | compute_insights_places
  | compute_insights_aggregate | get_route | render_video | validate_address
  | provide_validation_feedback => InBody
  | _ => InQuery
  end.

(** The default of a destructured parameter, where the function header gives
    one. *)
Definition default_value (t : Tool) (k : string) : option JSValue :=
  match t with
  | get_directions =>
      if String.eqb k "mode" then Some (JStr "driving")
      else if String.eqb k "language" then Some (JStr "en")
      else if String.eqb k "units" then Some (JStr "metric")
      else if String.eqb k "alternatives" then Some (JBool false)
      else if String.eqb k "traffic_model" then Some (JStr "best_guess")
      else None
  | distance_matrix =>
      if String.eqb k "mode" then Some (JStr "driving")
      else if String.eqb k "units" then Some (JStr "metric")
      else if String.eqb k "language" then Some (JStr "en")
      else if String.eqb k "region" then Some (JStr "en")
      else if String.eqb k "traffic_model" then Some (JStr "best_guess")
      else None
  | get_street_view =>
      if String.eqb k "fov" then Some (JNum (NInt 90))
      else if String.eqb k "pitch" then Some (JNum (NInt 0))
      else if String.eqb k "radius" then Some (JNum (NInt 50))
      else if String.eqb k "return_error_code" then Some (JBool false)
      else None
  | get_street_view_metadata =>
      if String.eqb k "radius" then Some (JNum (NInt 50))
      else if String.eqb k "return_error_code" then Some (JBool false)
      else None
  | get_route_matrix =>
      if String.eqb k "travelMode" then Some (JStr "DRIVE")
      else if String.eqb k "routingPreference" then Some (JStr "TRAFFIC_AWARE")
      else None
  | get_hourly_weather =>
      if String.eqb k "unitsSystem" then Some (JStr "METRIC")
      else if String.eqb k "pageSize" then Some (JNum (NInt 24))
      else if String.eqb k "hours" then Some (JNum (NInt 24))
      else if String.eqb k "languageCode" then Some (JStr "en")
      else None
  | geolocate =>
      if String.eqb k "considerIp" then Some (JBool false) else None
  | get_data_layers =>
      if String.eqb k "radiusMeters" then Some (JNum (NInt 100))
      else if String.eqb k "view" then Some (JStr "FULL_LAYERS")
      else if String.eqb k "requiredQuality" then Some (JStr "HIGH")
      else if String.eqb k "pixelSizeMeters" then Some (JNum (NFrac "0.5"))
      else None
  | autocomplete_places | geocode_address =>
      if String.eqb k "language" then Some (JStr "en")
      else if String.eqb k "region" then Some (JStr "en")
      else None
  | query_autocomplete =>
      if String.eqb k "language" then Some (JStr "en") else None
  | _ => None
  end.

(** ** Reading a run *)

Definition outcome {A} (r : Completion A * Trace) : Completion A := fst r.

Definition issued {A} (r : Completion A * Trace) : list Request := requests (snd r).

Definition logged {A} (r : Completion A * Trace) : list (string * Thrown) := console (snd r).

(** Reading the body the way an adapter of the given kind does. *)
Definition read (d : Decoding) (r : Response) : Completion Result :=
  match d with
  | AsJson => v <- json r ;; ret (Data v)
  | AsText => s <- text r ;; ret (Data (JStr s))
  | AsBuffer => b <- buffer r ;; ret (Image b)
  end.


(** *** The parts of an adapter *)

(** What runs before the [try] block and can throw: nothing, except in
    [get_route]. *)
Definition prologue (t : Tool) (args : Obj) : Completion unit :=
  match t with
  | get_route => _ <- Tools.get_route_requestBody args ;; ret tt
  | _ => ret tt
  end.

(** What runs inside the [try] block up to the [fetch] call. *)
Definition request_of (t : Tool) (apiKey : ApiKey) (args : Obj) : Completion Request :=
  match t with
  | autocomplete_places => Tools.autocomplete_places_request apiKey args
  | get_directions => Tools.get_directions_request apiKey args
  | distance_matrix => Tools.distance_matrix_request apiKey args
  | get_elevation => Tools.get_elevation_request apiKey args
  | geolocate => Tools.geolocate_request apiKey args
  | get_route_matrix => Tools.get_route_matrix_request apiKey args
  | get_place_photo => Tools.get_place_photo_request apiKey args
  | get_data_layers => Tools.get_data_layers_request apiKey args
  | get_forecast => Tools.get_forecast_request apiKey args
  | get_heatmap_tiles => Tools.get_heatmap_tiles_request apiKey args
  | compute_insights_places => Tools.compute_insights_places_request apiKey args
  | get_place_details => Tools.get_place_details_request apiKey args
  | get_hourly_weather => Tools.get_hourly_weather_request apiKey args
  | get_street_view_metadata => Tools.get_street_view_metadata_request apiKey args
  | get_street_view => Tools.get_street_view_request apiKey args
  | get_route =>
      requestBody <- Tools.get_route_requestBody args ;;
      Tools.get_route_request apiKey requestBody
  | get_building_insights => Tools.get_building_insights_request apiKey args
  | render_video => Tools.render_video_request apiKey args
  | text_search_places => Tools.text_search_places_request apiKey args
  | get_video => Tools.get_video_request apiKey args
  | validate_address => Tools.validate_address_request apiKey args
  | geocode_address => Tools.geocode_address_request apiKey args
  | compute_insights_aggregate => Tools.compute_insights_aggregate_request apiKey args
  | query_autocomplete => Tools.query_autocomplete_request apiKey args
  | provide_validation_feedback => Tools.provide_validation_feedback_request apiKey args
  end.

(** The first argument of [console.error] in the handler. *)
Definition console_label (t : Tool) : string :=
  match t with
  | autocomplete_places => "Error performing autocomplete:"
  | get_directions => "Error fetching directions:"
  | distance_matrix => "Error calculating distance matrix:"
  | get_elevation => "Error fetching elevation data:"
  | geolocate => "Error geolocating:"
  | get_route_matrix => "Error getting route matrix:"
  | get_place_photo => "Error retrieving place photo:"
  | get_data_layers => "Error getting data layers:"
  | get_forecast => "Error getting pollen forecast:"
  | get_heatmap_tiles => "Error fetching heatmap tiles:"
  | compute_insights_places | compute_insights_aggregate => "Error computing insights:"
  | get_place_details => "Error getting place details:"
  | get_hourly_weather => "Error retrieving hourly historical weather data:"
  | get_street_view_metadata => "Error retrieving Street View metadata:"
  | get_street_view => "Error retrieving Street View image:"
  | get_route => "Error getting route:"
  | get_building_insights => "Error fetching building insights:"
  | render_video => "Error rendering video:"
  | text_search_places => "Error performing text search:"
  | get_video => "Error retrieving video:"
  | validate_address => "Error validating address:"
  | geocode_address => "Error geocoding address:"
  | query_autocomplete => "Error querying autocomplete:"
  | provide_validation_feedback => "Error providing validation feedback:"
  end.

(** The context that the handler puts in front of the message. *)
Definition error_prefix (t : Tool) : string :=
  match t with
  | autocomplete_places => "An error occurred while performing autocomplete: "
  | get_directions => "An error occurred while fetching directions: "
  | distance_matrix => "An error occurred while calculating the distance matrix: "
  | get_elevation => "An error occurred while fetching elevation data: "
  | geolocate => "An error occurred while geolocating: "
  | get_route_matrix => "An error occurred while getting the route matrix: "
  | get_place_photo => "An error occurred while retrieving the place photo: "
  | get_data_layers => "An error occurred while getting data layers: "
  | get_forecast => "An error occurred while getting the pollen forecast: "
  | get_heatmap_tiles => "An error occurred while fetching heatmap tiles: "
  | compute_insights_places | compute_insights_aggregate =>
      "An error occurred while computing insights: "
  | get_place_details => "An error occurred while getting place details: "
  | get_hourly_weather => "An error occurred while retrieving weather data: "
  | get_street_view_metadata => "An error occurred while retrieving Street View metadata: "
  | get_street_view => "An error occurred while retrieving the Street View image: "
  | get_route => "An error occurred while getting the route: "
  | get_building_insights => "An error occurred while fetching building insights: "
  | render_video => "An error occurred while rendering the video: "
  | text_search_places => "An error occurred while performing the text search: "
  | get_video => "An error occurred while retrieving the video: "
  | validate_address => "An error occurred while validating the address: "
  | geocode_address => "An error occurred while geocoding the address: "
  | query_autocomplete => "An error occurred while querying autocomplete: "
  | provide_validation_feedback => "An error occurred while providing validation feedback: "
  end.

(** The text of the error an image adapter raises on a status outside
    200-299. *)
Definition status_message (t : Tool) : Response -> string :=
  match t with
  | get_place_photo => Tools.get_place_photo_status_message
  | _ => Tools.get_street_view_status_message
  end.

Definition skeleton (d : Decoding) (label prefix : string)
  (message : Response -> string) (build : Completion Request) : Exec Result :=
  match d with
  | AsJson => json_adapter label prefix build
  | AsText => text_adapter label prefix build
  | AsBuffer => binary_adapter label prefix message build
  end.

(** What the [try] block completes with once [fetch] has settled. *)
Definition block_result (d : Decoding) (message : Response -> string)
  (fr : FetchResult) : Completion Result :=
  match fr with
  | Rejects e => Abrupt e
  | Responds r =>
      if ok r then read d r
      else match d with
           | AsJson =>
               errorData <- json r ;;
               Abrupt (new_Error (JS.JSON_stringify errorData))
           | AsText =>
               errorData <- text r ;;
               Abrupt (new_Error (Some errorData))
           | AsBuffer => Abrupt (new_Error (Some (message r)))
           end
  end.

(** What the [catch] block completes with. *)
Definition handler_result (d : Decoding) (prefix : string) (error : Thrown)
  : Completion Result :=
  match d with
  | AsBuffer => m <- message_of error ;; Abrupt (new_Error (Some (prefix ++ m)))
  | _ => Normal (Data (error_envelope (prefix ++ describe error)))
  end.

(** *** What a request carries *)

(** The value a parameter has inside the function: the argument, or the
    default of the function header when the argument is absent. *)
Definition effective_value (t : Tool) (args : Obj) (k : string) : JSValue :=
  JS.or_default (JS.obj_get args k)
    (match default_value t k with Some d => d | None => JUndefined end).






(** A piece of an address without [?] and [#]. *)
Definition clean (s : string) : bool := Text.absent "?" s && Text.absent "#" s.

(** ** Sample inputs *)

(** Inputs used to exercise the statements below. *)
Definition sample_key : ApiKey := Some "test-key_123".

Definition directions_args : Obj :=
  [("origin", JStr "Paris"); ("destination", JStr "Lyon"); ("avoid", JStr "tolls")].

Definition street_view_args : Obj :=
  [("size", JStr "600x400"); ("heading", JNum (NInt 0))].


Definition not_found : Response :=
  {| status := 404;
     statusText := "Not Found";
     json := Abrupt (ErrorObject "SyntaxError" "Unexpected token < in JSON at position 0");
     text := Normal "<html>Not Found</html>";
     buffer := Normal [] |}.

Definition upstream_body : JSValue :=
  JObj [("status", JStr "OK"); ("routes", JArr [JObj [("summary", JStr "A6")]])].

Definition success : Response :=
  {| status := 200;
     statusText := "OK";
     json := Normal upstream_body;
     text := Normal ("{" ++ Text.quoted "status" ++ ":" ++ Text.quoted "OK" ++ ","
                     ++ Text.quoted "routes" ++ ":[{" ++ Text.quoted "summary" ++ ":"
                     ++ Text.quoted "A6" ++ "}]}");
     buffer := Normal [] |}.

Definition answering (r : Response) : Network := fun _ => Responds r.

Definition forecast_args : Obj :=
  [ ("longitude", JNum (NFrac "-122.08")); ("latitude", JNum (NFrac "37.42"));
    ("days", JNum (NInt 3)) ].

(** The requests the sample arguments lead to when the key is not set. *)
Definition directions_request : Request :=
  {| method := GET;
     url := "https://www.googleapis.com/maps/api/directions/json"
            ++ "?origin=Paris&destination=Lyon&mode=driving&language=en&units=metric"
            ++ "&avoid=tolls&traffic_model=best_guess&key=undefined";
     headers := [("Accept", "application/json")];
     body := None |}.

Definition street_view_request : Request :=
  {| method := GET;
     url := "https://www.googleapis.com/maps/api/streetview"
            ++ "?size=600x400&fov=90&radius=50&key=undefined";
     headers := [("Accept", "image/*")];
     body := None |}.

(** ** Further vocabulary *)

(** [undefined] and [null], the two values a property read throws on. *)
Definition nullish (v : JSValue) : bool :=
  match v with
  | JUndefined | JNull => true
  | _ => false
  end.

(** A status inside the range [response.ok] accepts. *)
Definition in_2xx (r : Response) : Prop := (200 <= status r <= 299)%Z.



(** The name a declared parameter travels under in the query string: the
    coordinates of the Solar, Pollen and Weather adapters are appended as
    [location.latitude] and [location.longitude]. *)
Definition wire_name (t : Tool) (k : string) : string :=
  match t with
  | get_data_layers | get_forecast | get_hourly_weather | get_building_insights =>
      if String.eqb k "latitude" || String.eqb k "longitude"
      then "location." ++ k
      else k
  | _ => k
  end.

(** The adapters that build their whole address with [new URL] and
    [searchParams]. *)
Definition address_from_URL (t : Tool) : bool :=
  match t with
  | autocomplete_places | get_directions | distance_matrix | get_elevation
  | get_place_photo | get_data_layers | get_forecast | get_place_details
  | get_hourly_weather | get_street_view_metadata | get_street_view
  | get_building_insights | geocode_address | query_autocomplete => true
  | _ => false
  end.



(** The optional query parameters that are appended without an [if]. *)
Definition always_sent (t : Tool) (k : string) : bool :=
  match t with
  | get_directions =>
      String.eqb k "mode" || String.eqb k "language" || String.eqb k "units"
  | distance_matrix =>
      String.eqb k "mode" || String.eqb k "units" || String.eqb k "language"
  | geocode_address => String.eqb k "language" || String.eqb k "region"
  | query_autocomplete => String.eqb k "language"
  | get_hourly_weather =>
      String.eqb k "unitsSystem" || String.eqb k "pageSize" || String.eqb k "hours"
      || String.eqb k "languageCode"
  | get_data_layers =>
      String.eqb k "radiusMeters" || String.eqb k "view"
      || String.eqb k "requiredQuality" || String.eqb k "pixelSizeMeters"
  | _ => false
  end.

(** The names an adapter can put into its query string: [key], the declared
    parameters under their wire names, and the constant [requiredQuality] of
    [get_building_insights]. *)
Definition allowed_names (t : Tool) : list string :=
  "key"
  :: (match t with get_building_insights => ["requiredQuality"] | _ => [] end
      ++ map (wire_name t) (map fst (properties (declaration t))))%list.

(** * Properties *)

(** ** The model on concrete inputs *)

Example ToString_array :
  JS.ToString (JArr [JNum (NInt 1); JNull; JStr "a"; JBool true]) = Normal "1,,a,true".
Proof. reflexivity. Qed.

Example JSON_stringify_skips_undefined :
  JS.JSON_stringify (JObj [("a", JUndefined); ("b", JArr [JUndefined; JNum (NInt (-3))])])
  = Some ("{" ++ Text.quoted "b" ++ ":[null,-3]}").
Proof. reflexivity. Qed.

Example serialize_space :
  URLSearchParams.toString [("address", "1600 Amphitheatre Pkwy"); ("q", "a&b=c/d")]
  = "address=1600+Amphitheatre+Pkwy&q=a%26b%3Dc%2Fd".
Proof. reflexivity. Qed.

Example query_params_example :
  URL.query_params "https://h/p?a=1&b=x%20y&&c#frag"
  = [("a", "1"); ("b", "x%20y"); ("c", "")].
Proof. reflexivity. Qed.

(** ** Strings *)

Module TextFacts.

Import Text.

Lemma append_nil_r (s : string) : s ++ "" = s.
Proof. induction s; simpl; congruence. Qed.

Lemma append_assoc (a b c : string) : (a ++ b) ++ c = a ++ b ++ c.
Proof. induction a; simpl; congruence. Qed.

Lemma absent_app c a b : absent c (a ++ b) = absent c a && absent c b.
Proof.
  induction a as [|x a IH]; simpl; [reflexivity|].
  rewrite IH. now rewrite andb_assoc.
Qed.

Lemma cut_absent c s : absent c s = true -> cut c s = (s, None).
Proof.
  induction s as [|a s IH]; simpl; [reflexivity|].
  intros H. apply andb_prop in H. destruct H as [Ha Hs].
  destruct (Ascii.eqb a c); [discriminate|].
  now rewrite (IH Hs).
Qed.

Lemma cut_at c x y : absent c x = true -> cut c (x ++ String c y) = (x, Some y).
Proof.
  induction x as [|a x IH]; simpl.
  - intros _. now rewrite Ascii.eqb_refl.
  - intros H. apply andb_prop in H. destruct H as [Ha Hx].
    destruct (Ascii.eqb a c); [discriminate|].
    now rewrite (IH Hx).
Qed.

(** The two parts [cut] returns: the head never holds the separator. *)
Lemma cut_head_absent c s : absent c (fst (cut c s)) = true.
Proof.
  induction s as [|a s IH]; simpl; [reflexivity|].
  destruct (Ascii.eqb a c) eqn:E; simpl; [reflexivity|].
  destruct (cut c s) as [h t]. simpl in *. now rewrite E, IH.
Qed.

Lemma cut_head_keeps_absent c d s :
  absent d s = true -> absent d (fst (cut c s)) = true.
Proof.
  induction s as [|a s IH]; simpl; [reflexivity|].
  intros H. apply andb_prop in H. destruct H as [Ha Hs].
  destruct (Ascii.eqb a c); simpl; [reflexivity|].
  specialize (IH Hs). destruct (cut c s) as [h t]. simpl in *. now rewrite Ha, IH.
Qed.

Lemma pieces_absent c s : absent c s = true -> pieces c s = [s].
Proof.
  induction s as [|a s IH]; simpl; [reflexivity|].
  intros H. apply andb_prop in H. destruct H as [Ha Hs].
  destruct (Ascii.eqb a c); [discriminate|].
  now rewrite (IH Hs).
Qed.

Lemma pieces_at c x y :
  absent c x = true -> pieces c (x ++ String c y) = x :: pieces c y.
Proof.
  induction x as [|a x IH]; simpl.
  - intros _. now rewrite Ascii.eqb_refl.
  - intros H. apply andb_prop in H. destruct H as [Ha Hx].
    destruct (Ascii.eqb a c); [discriminate|].
    now rewrite (IH Hx).
Qed.



End TextFacts.

(** ** Form encoding *)

Module FormFacts.

Import Text TextFacts FormUrlencoded.

Lemma encode_plain s : plain s = true -> encode s = s.
Proof.
  induction s as [|c s IH]; simpl; [reflexivity|].
  intros H. apply andb_prop in H. destruct H as [Hc Hs].
  unfold encode_byte. rewrite Hc. simpl. now rewrite (IH Hs).
Qed.

Lemma encode_byte_no_delimiter c b :
  delimiter c = true -> absent c (encode_byte b) = true.
Proof.
  unfold delimiter. rewrite !orb_true_iff, !Ascii.eqb_eq.
  intros [[[-> | ->] | ->] | ->];
    destruct b as [[] [] [] [] [] [] [] []]; reflexivity.
Qed.

Lemma encode_no_delimiter c s : delimiter c = true -> absent c (encode s) = true.
Proof.
  intros Hc. induction s as [|b s IH]; simpl; [reflexivity|].
  now rewrite absent_app, encode_byte_no_delimiter, IH.
Qed.

Lemma plain_no_delimiter c s : delimiter c = true -> plain s = true -> absent c s = true.
Proof.
  intros Hc Hs. rewrite <- (encode_plain s Hs). now apply encode_no_delimiter.
Qed.

Lemma encode_pair_absent c p :
  delimiter c = true -> Ascii.eqb c "=" = false -> absent c (encode_pair p) = true.
Proof.
  intros Hc He. unfold encode_pair.
  rewrite !absent_app, !encode_no_delimiter by assumption.
  cbn [absent andb]. rewrite Ascii.eqb_sym, He. reflexivity.
Qed.

Lemma serialize_cons p ps :
  serialize (p :: ps) =
  match ps with
  | [] => encode_pair p
  | _ :: _ => encode_pair p ++ String "&" (serialize ps)
  end.
Proof. destruct ps; reflexivity. Qed.

Lemma serialize_absent c ps :
  delimiter c = true -> Ascii.eqb c "=" = false -> Ascii.eqb c "&" = false ->
  absent c (serialize ps) = true.
Proof.
  intros Hc He Ha. induction ps as [|p ps IH]; [reflexivity|].
  rewrite serialize_cons. destruct ps as [|q ps].
  - now apply encode_pair_absent.
  - rewrite absent_app, encode_pair_absent by assumption.
    cbn [absent]. rewrite Ascii.eqb_sym, Ha, IH. reflexivity.
Qed.


Lemma cut_encode_pair p :
  cut "=" (encode_pair p) = (encode (fst p), Some (encode (snd p))).
Proof.
  unfold encode_pair. apply cut_at. now apply encode_no_delimiter.
Qed.

Lemma encode_pair_nonempty p : nonempty (encode_pair p) = true.
Proof.
  unfold encode_pair. destruct (encode (fst p)); reflexivity.
Qed.

(** Splitting a serialised list at [&] gives back its encoded pairs. *)
Lemma pieces_serialize p ps :
  pieces "&" (serialize (p :: ps)) = map encode_pair (p :: ps).
Proof.
  revert p. induction ps as [|q ps IH]; intros p.
  - simpl. apply pieces_absent. now apply encode_pair_absent.
  - rewrite serialize_cons, pieces_at by now apply encode_pair_absent.
    rewrite IH. reflexivity.
Qed.

End FormFacts.

(** ** Parameter lists and addresses *)

Module ParamFacts.

Import URLSearchParams.

Lemma exec_fire s acc ps :
  exec s acc = Normal ps ->
  exists l, ps = (acc ++ l)%list
            /\ map settled l = match fire s with Some p => [p] | None => [] end.
Proof.
  induction s as [name value | cond body IH]; simpl.
  - destruct value as [v|e]; simpl; [|discriminate].
    intros H. injection H as <-. now exists [(name, v)].
  - destruct (JS.ToBoolean cond); [exact IH|].
    simpl. intros H. injection H as <-. exists []. now rewrite app_nil_r.
Qed.

(** A successful run appends exactly the pairs that fired, in order. *)
Lemma exec_all_fired stmts acc ps :
  exec_all stmts acc = Normal ps ->
  exists l, ps = (acc ++ l)%list /\ map settled l = fired stmts.
Proof.
  revert acc. induction stmts as [|s stmts IH]; intros acc; simpl.
  - intros H. injection H as <-. exists []. now rewrite app_nil_r.
  - destruct (exec s acc) as [mid|e] eqn:E; simpl; [|discriminate].
    intros H. apply exec_fire in E. destruct E as [l1 [-> H1]].
    apply IH in H. destruct H as [l2 [-> H2]].
    exists (l1 ++ l2)%list. split; [now rewrite app_assoc|].
    unfold fired in *. simpl. now rewrite map_app, H1, H2.
Qed.

Lemma exec_ok s acc :
  (forall p, fire s = Some p -> exists v, snd p = Normal v) ->
  exists ps, exec s acc = Normal ps.
Proof.
  induction s as [name value | cond body IH]; simpl; intros H.
  - destruct (H _ eq_refl) as [v Hv]. simpl in Hv. subst. now eexists.
  - destruct (JS.ToBoolean cond); [now apply IH | now eexists].
Qed.

(** The run succeeds as soon as every conversion that fires does. *)
Lemma exec_all_ok stmts acc :
  (forall p, In p (fired stmts) -> exists v, snd p = Normal v) ->
  exists ps, exec_all stmts acc = Normal ps.
Proof.
  revert acc. induction stmts as [|s stmts IH]; intros acc H; simpl.
  - now eexists.
  - destruct (exec_ok s acc) as [mid Hmid].
    + intros p Hp. apply H. unfold fired. simpl. rewrite Hp. now left.
    + rewrite Hmid. simpl. apply IH. intros p Hp. apply H.
      unfold fired in *. simpl. apply in_or_app. now right.
Qed.

Lemma in_fired p stmts :
  In p (fired stmts) <-> exists s, In s stmts /\ fire s = Some p.
Proof.
  unfold fired. rewrite in_flat_map. split; intros [s [Hs H]]; exists s; split; auto.
  - destruct (fire s) as [q|]; simpl in H; [|contradiction].
    destruct H as [->|[]]. reflexivity.
  - rewrite H. now left.
Qed.

Lemma fire_name s p : fire s = Some p -> fst p = stmt_name s.
Proof.
  induction s as [name value | cond body IH]; simpl.
  - intros H. now injection H as <-.
  - destruct (JS.ToBoolean cond); [exact IH | discriminate].
Qed.

Lemma values_named_fired k stmts :
  values_named k stmts
  = map snd (filter (fun p => String.eqb (fst p) k) (fired stmts)).
Proof.
  unfold fired. induction stmts as [|s stmts IH]; [reflexivity|].
  cbn [values_named flat_map]. rewrite filter_app, map_app, IH. f_equal.
  destruct (fire s) as [p|] eqn:E.
  - apply fire_name in E. cbn [filter]. rewrite E.
    destruct (String.eqb (stmt_name s) k); reflexivity.
  - destruct (String.eqb (stmt_name s) k); reflexivity.
Qed.

Lemma fired_names_plain stmts p :
  names_plain stmts = true -> In p (fired stmts) -> FormUrlencoded.plain (fst p) = true.
Proof.
  unfold names_plain. rewrite forallb_forall, in_fired.
  intros H [s [Hs Hf]]. apply fire_name in Hf. rewrite Hf. now apply H.
Qed.

End ParamFacts.

Module URLFacts.

Import Text TextFacts FormUrlencoded FormFacts URLSearchParams ParamFacts.

Lemma new_path_clean input :
  absent "?" (URL.path_part (URL.new input)) = true
  /\ absent "#" (URL.path_part (URL.new input)) = true.
Proof.
  unfold URL.new.
  pose proof (cut_head_absent "#" input) as Hh.
  destruct (cut "#" input) as [before fragment]. simpl in Hh.
  pose proof (cut_head_absent "?" before) as Hq.
  pose proof (cut_head_keeps_absent "?" "#" before Hh) as Hk.
  destruct (cut "?" before) as [path q]. simpl in *. now split.
Qed.

Lemma fst_cut_hash x h :
  absent "#" x = true ->
  fst (cut "#" (x ++ match h with Some f => "#" ++ f | None => "" end)) = x.
Proof.
  intros Hx. destruct h as [f|].
  - change ("#" ++ f) with (String "#" f). now rewrite cut_at.
  - now rewrite append_nil_r, cut_absent.
Qed.

(** Writing a serialised parameter list into an address and reading the
    query back gives the list's serialisation. *)
Lemma query_set_search input ps :
  URL.query (URL.href (URL.set_search (URL.new input) (serialize ps))) = serialize ps.
Proof.
  destruct (new_path_clean input) as [Hq Hh].
  pose proof (serialize_absent "?" ps eq_refl eq_refl eq_refl) as Sq.
  pose proof (serialize_absent "#" ps eq_refl eq_refl eq_refl) as Sh.
  unfold URL.query, URL.href, URL.set_search.
  destruct (serialize ps) as [|c rest] eqn:E; cbn [URL.path_part URL.search URL.hash].
  - cbn [String.append]. rewrite fst_cut_hash by assumption.
    now rewrite cut_absent.
  - cbn [absent] in Sq. apply andb_prop in Sq. destruct Sq as [Hc _].
    destruct (Ascii.eqb c "?"); [discriminate|].
    rewrite <- append_assoc.
    rewrite fst_cut_hash.
    + change ("?" ++ String c rest) with (String "?" (String c rest)).
      now rewrite cut_at.
    + rewrite absent_app, Hh. exact Sh.
Qed.

Lemma query_params_set_search input ps :
  URL.query_params (URL.href (URL.set_search (URL.new input) (serialize ps)))
  = map encoded_pair ps.
Proof.
  unfold URL.query_params. rewrite query_set_search.
  destruct ps as [|p ps]; [reflexivity|].
  rewrite pieces_serialize.
  assert (F : forall l, filter nonempty (map encode_pair l) = map encode_pair l).
  { induction l as [|x l IH]; simpl; [reflexivity|].
    now rewrite encode_pair_nonempty, IH. }
  rewrite F, map_map. apply map_ext. intros x.
  now rewrite cut_encode_pair.
Qed.

(** The parameters a server reads from an address built with
    [URL.with_params] are the encoded pairs of the statements that fired. *)
Lemma with_params_query base stmts address :
  URL.with_params base stmts = Normal address ->
  exists ps,
    map settled ps = fired stmts
    /\ URL.query_params address = map encoded_pair ps.
Proof.
  unfold URL.with_params. simpl.
  destruct (URLSearchParams.exec_all stmts []) as [ps|e] eqn:E; [|discriminate].
  intros H. injection H as <-.
  apply exec_all_fired in E. destruct E as [l [-> Hl]].
  exists l. split; [assumption|]. apply query_params_set_search.
Qed.

Lemma with_params_sent base stmts address name v :
  URL.with_params base stmts = Normal address ->
  In (name, Normal v) (fired stmts) ->
  In (encode name, encode v) (URL.query_params address).
Proof.
  intros H Hin. destruct (with_params_query _ _ H) as [ps [Hs ->]].
  rewrite <- Hs in Hin. apply in_map_iff in Hin. destruct Hin as [[n w] [Hp Hin]].
  injection Hp as -> ->.
  apply in_map_iff. now exists (name, v).
Qed.

Lemma with_params_read base stmts address name value :
  URL.with_params base stmts = Normal address ->
  In (name, value) (URL.query_params address) ->
  exists n v, In (n, Normal v) (fired stmts) /\ name = encode n /\ value = encode v.
Proof.
  intros H Hin. destruct (with_params_query _ _ H) as [ps [Hs Hq]].
  rewrite Hq in Hin. apply in_map_iff in Hin. destruct Hin as [[n v] [Hp Hin]].
  injection Hp as <- <-. exists n, v. split; [|now split].
  rewrite <- Hs. apply in_map_iff. now exists (n, v).
Qed.

Lemma with_params_ok base stmts :
  (forall p, In p (fired stmts) -> exists v, snd p = Normal v) ->
  exists address, URL.with_params base stmts = Normal address.
Proof.
  intros H. unfold URL.with_params.
  destruct (exec_all_ok stmts [] H) as [ps ->]. simpl. now eexists.
Qed.

(** The values a server reads under a name are the encodings of the values
    appended under that name, when the names in play are plain. *)
Lemma with_params_values base stmts address k :
  URL.with_params base stmts = Normal address ->
  names_plain stmts = true ->
  exists ss,
    map (@Normal string) ss = values_named k stmts
    /\ forall w, In (k, w) (URL.query_params address) <-> In w (map encode ss).
Proof.
  intros H Hp. destruct (with_params_query _ _ H) as [ps [Hs Hq]].
  assert (Hplain : forall p, In p ps -> encode (fst p) = fst p).
  { intros p Hin. apply encode_plain.
    apply (fired_names_plain stmts (settled p) Hp).
    rewrite <- Hs. now apply in_map. }
  exists (map snd (filter (fun p => String.eqb (fst p) k) ps)). split.
  - rewrite values_named_fired, <- Hs. clear.
    induction ps as [|[n v] ps IH]; [reflexivity|].
    cbn [filter map settled fst snd]. destruct (String.eqb n k); cbn [map snd]; now rewrite IH.
  - intros w. rewrite Hq, !in_map_iff. split.
    + intros [p [Hpw Hin]]. injection Hpw as Hn Hw.
      rewrite (Hplain p Hin) in Hn.
      exists (snd p). split; [assumption|].
      apply in_map_iff. exists p. split; [reflexivity|].
      apply filter_In. split; [assumption|]. now apply String.eqb_eq.
    + intros [v [Hw Hin]]. apply in_map_iff in Hin. destruct Hin as [p [Hv Hin]].
      apply filter_In in Hin. destruct Hin as [Hin Hk]. apply String.eqb_eq in Hk.
      exists p. split; [|assumption].
      unfold encoded_pair. now rewrite (Hplain p Hin), Hk, Hv, Hw.
Qed.

End URLFacts.

(** ** Runs *)

Module ExecFacts.

(** A run of any of the three bodies: at most one request, and a result that
    is the block's when it completes normally and the handler's otherwise. *)
Lemma skeleton_run d label prefix message build net :
  run (skeleton d label prefix message build) net =
  match build with
  | Abrupt e =>
      (handler_result d prefix e, {| requests := []; console := [(label, e)] |})
  | Normal req =>
      match block_result d message (net req) with
      | Normal v => (Normal v, {| requests := [req]; console := [] |})
      | Abrupt e =>
          (handler_result d prefix e, {| requests := [req]; console := [(label, e)] |})
      end
  end.
Proof.
  destruct build as [req|e].
  - destruct d; unfold run, skeleton, json_adapter, text_adapter, binary_adapter,
      try_catch, fetch, lift, throw, console_error, block_result, handler_result, read;
      simpl; destruct (net req) as [e|r]; simpl;
      try (destruct (message_of e); reflexivity); try reflexivity;
      destruct (ok r); simpl.
    + destruct (json r); reflexivity.
    + destruct (json r); reflexivity.
    + destruct (text r); reflexivity.
    + destruct (text r); reflexivity.
    + destruct (buffer r) as [b|e]; simpl; [reflexivity|].
      destruct (message_of e); reflexivity.
    + reflexivity.
  - destruct d; unfold run, skeleton, json_adapter, text_adapter, binary_adapter,
      try_catch, fetch, lift, throw, console_error, handler_result; simpl;
      try reflexivity.
    destruct (message_of e); reflexivity.
Qed.

(** Every [executeFunction] is its prologue followed by one of the three
    bodies around its request builder. *)
Lemma executeFunction_run t apiKey args net :
  run (executeFunction t apiKey args) net =
  match prologue t args with
  | Abrupt e => (Abrupt e, no_trace)
  | Normal _ =>
      run (skeleton (decoding t) (console_label t) (error_prefix t) (status_message t)
             (request_of t apiKey args)) net
  end.
Proof.
  destruct t; try reflexivity.
  unfold executeFunction, Tools.get_route, prologue, request_of, run. simpl.
  unfold lift. destruct (Tools.get_route_requestBody args); reflexivity.
Qed.

Lemma issued_request t apiKey args net req :
  issued (run (executeFunction t apiKey args) net) = [req] ->
  prologue t args = Normal tt /\ request_of t apiKey args = Normal req.
Proof.
  rewrite executeFunction_run. destruct (prologue t args) as [[]|e]; [|discriminate].
  rewrite skeleton_run. destruct (request_of t apiKey args) as [r|e]; [|discriminate].
  destruct (block_result _ _ _); unfold issued; simpl; intros H; injection H as ->; auto.
Qed.

Lemma request_issued t apiKey args net req :
  prologue t args = Normal tt -> request_of t apiKey args = Normal req ->
  run (executeFunction t apiKey args) net =
  match block_result (decoding t) (status_message t) (net req) with
  | Normal v => (Normal v, {| requests := [req]; console := [] |})
  | Abrupt e =>
      (handler_result (decoding t) (error_prefix t) e,
       {| requests := [req]; console := [(console_label t, e)] |})
  end.
Proof.
  intros Hp Hr. now rewrite executeFunction_run, Hp, skeleton_run, Hr.
Qed.


End ExecFacts.

(** ** The adapter contract *)

Import ExecFacts.



(** A failure inside the [try] block before the request is made (a
    conversion that throws) is handled the same way, and nothing is sent. *)
Lemma builder_failure_resolves t apiKey args net e :
  binary t = false ->
  prologue t args = Normal tt ->
  request_of t apiKey args = Abrupt e ->
  run (executeFunction t apiKey args) net
  = (Normal (Data (error_envelope (error_prefix t ++ describe e))),
     {| requests := []; console := [(console_label t, e)] |}).
Proof.
  intros Hb Hp Hr. rewrite executeFunction_run, Hp, skeleton_run, Hr.
  unfold binary in Hb. unfold handler_result.
  destruct (decoding t); [reflexivity | reflexivity | discriminate].
Qed.

(** The one statement that can throw outside a [try] block: [get_route]
    reads [origin.address] and [destination.address] before it enters the
    block, so a call without [origin] rejects and sends nothing. *)
Lemma get_route_without_origin_rejects apiKey args net :
  JS.obj_get args "origin" = JUndefined ->
  run (executeFunction get_route apiKey args) net
  = (Abrupt (TypeError "Cannot read properties of undefined (reading 'address')"),
     no_trace).
Proof.
  intros H. rewrite executeFunction_run. cbn [prologue].
  unfold Tools.get_route_requestBody, Tools.arg. now rewrite H.
Qed.

(** C2. For the two image adapters, a response whose status is outside
    200-299 makes the executable reject with an [Error] whose message
    contains the status code. *)
Theorem C2_binary_adapters_throw_with_status :
  forall t apiKey args net req r,
    binary t = true ->
    issued (run (executeFunction t apiKey args) net) = [req] ->
    net req = Responds r ->
    ok r = false ->
    exists message,
      outcome (run (executeFunction t apiKey args) net)
      = Abrupt (ErrorObject "Error" message)
      /\ Text.contains (Text.decimal (status r)) message.
Proof.
  intros t apiKey args net req r Hb Hi Hn Ho.
  destruct (issued_request _ _ _ _ Hi) as [Hp Hr].
  rewrite (request_issued _ _ _ net Hp Hr), Hn.
  destruct t; try discriminate Hb; simpl; rewrite Ho; simpl; eexists; (split; [reflexivity|]).
  - exists "An error occurred while retrieving the place photo: Error: ",
      (" " ++ statusText r). reflexivity.
  - exists "An error occurred while retrieving the Street View image: HTTP error! status: ",
      "". simpl. now rewrite TextFacts.append_nil_r.
Qed.

Lemma C2_witness :
  exists message,
    outcome (run (executeFunction get_street_view sample_key street_view_args) (answering not_found))
    = Abrupt (ErrorObject "Error" message)
    /\ Text.contains "404" message.
Proof.
  eapply (C2_binary_adapters_throw_with_status get_street_view sample_key street_view_args
            (answering not_found) (r := not_found)); reflexivity.
Defined.






(** [get_heatmap_tiles] reads the error body as text and does not parse it:
    on a status outside 200-299 the message carries the body as received. *)
Lemma heatmap_error_carries_body_text apiKey args net req r body_text :
  issued (run (executeFunction get_heatmap_tiles apiKey args) net) = [req] ->
  net req = Responds r ->
  ok r = false ->
  text r = Normal body_text ->
  outcome (run (executeFunction get_heatmap_tiles apiKey args) net)
  = Normal (Data (error_envelope (error_prefix get_heatmap_tiles ++ body_text))).
Proof.
  intros Hi Hn Ho Ht.
  destruct (issued_request _ _ _ _ Hi) as [Hp Hr].
  rewrite (request_issued _ _ _ net Hp Hr), Hn.
  simpl. now rewrite Ho, Ht.
Qed.

(** Once the prologue and the builder have completed, the run issues
    exactly the request built. *)
Lemma issued_built t apiKey args net req :
  prologue t args = Normal tt ->
  request_of t apiKey args = Normal req ->
  issued (run (executeFunction t apiKey args) net) = [req].
Proof.
  intros Hp Hr. rewrite (ExecFacts.request_issued _ _ _ net Hp Hr).
  destruct (block_result _ _ _); reflexivity.
Qed.

(** C6. [get_route], called with [{origin:{address:"A"},
    destination:{address:"B"}}], issues exactly one request: a POST to the
    [computeRoutes] address, with the two addresses as its JSON body and the
    field mask [*] among its headers.  This holds whatever the key and
    whatever the upstream service answers. *)
Theorem C6_get_route_request :
  forall apiKey net,
    issued (run (executeFunction get_route apiKey
                   [ ("origin", JObj [("address", JStr "A")]);
                     ("destination", JObj [("address", JStr "B")]) ]) net)
    = [ {| method := POST;
           url := "https://routes.googleapis.com/directions/v2:computeRoutes";
           headers := [ ("X-Goog-FieldMask", "*");
                        ("Content-Type", "application/json");
                        ("X-Goog-Api-Key", key_text apiKey) ];
           body := Some ("{" ++ Text.quoted "origin" ++ ":{" ++ Text.quoted "address" ++ ":"
                         ++ Text.quoted "A" ++ "}," ++ Text.quoted "destination" ++ ":{"
                         ++ Text.quoted "address" ++ ":" ++ Text.quoted "B" ++ "}}") |} ].
Proof.
  intros apiKey net. apply issued_built; reflexivity.
Qed.

Lemma geocode_address_built apiKey :
  request_of geocode_address apiKey [("address", JStr "1600 Amphitheatre Pkwy")]
  = Normal {| method := GET;
              url := "https://www.googleapis.com/maps/api/geocode/json"
                     ++ "?address=1600+Amphitheatre+Pkwy&language=en&region=en&key="
                     ++ FormUrlencoded.encode (key_text apiKey);
              headers := [("Accept", "application/json")];
              body := None |}.
Proof.
  destruct apiKey as [k|]; cbv - [FormUrlencoded.encode String.append];
    simpl; rewrite ?TextFacts.append_nil_r; reflexivity.
Qed.

(** C7. [geocode_address], called with only
    [{address:"1600 Amphitheatre Pkwy"}], issues one GET whose query string is
    [address=1600+Amphitheatre+Pkwy&language=en&region=en&key=<key>], the key
    form-encoded, and nothing else. *)
Theorem C7_geocode_address_request :
  forall apiKey net,
    issued (run (executeFunction geocode_address apiKey
                   [("address", JStr "1600 Amphitheatre Pkwy")]) net)
    = [ {| method := GET;
           url := "https://www.googleapis.com/maps/api/geocode/json"
                  ++ "?address=1600+Amphitheatre+Pkwy&language=en&region=en&key="
                  ++ FormUrlencoded.encode (key_text apiKey);
           headers := [("Accept", "application/json")];
           body := None |} ].
Proof.
  intros apiKey net. apply issued_built; [reflexivity | apply geocode_address_built].
Qed.

(** With a key made of letters, digits and [* - . _] the encoder leaves the
    key as it is, so the query string of the geocoding request ends in the
    key itself. *)
Lemma geocode_address_plain_key k net :
  FormUrlencoded.plain k = true ->
  map url (issued (run (executeFunction geocode_address (Some k)
                          [("address", JStr "1600 Amphitheatre Pkwy")]) net))
  = [ "https://www.googleapis.com/maps/api/geocode/json"
      ++ "?address=1600+Amphitheatre+Pkwy&language=en&region=en&key=" ++ k ].
Proof.
  intros Hk.
  rewrite (issued_built geocode_address (Some k) _ net eq_refl (geocode_address_built _)).
  simpl. now rewrite (FormFacts.encode_plain k Hk).
Qed.

(** ** What the requests carry *)

Import URLSearchParams.

Lemma map_Normal_nil (ss : list string) :
  map (@Normal string) ss = [] -> ss = [].
Proof. destruct ss; [reflexivity | discriminate]. Qed.

Lemma map_Normal_singleton (ss : list string) c :
  map (@Normal string) ss = [c] -> exists s, ss = [s] /\ c = Normal s.
Proof.
  destruct ss as [|s [|s' ss]]; try discriminate.
  intros H. injection H as <-. now exists s.
Qed.

Lemma toString_ToString v s : JS.toString v = Normal s -> JS.ToString v = Normal s.
Proof.
  destruct v; simpl; try discriminate; try tauto.
  destruct (JS.has_key "toString" props); [discriminate | tauto].
Qed.

Lemma or_default_undefined v : JS.or_default v JUndefined = v.
Proof. now destruct v. Qed.

(** Unfolds a request builder in [H : request_of t apiKey args = Normal req]
    down to the conversions and the [URL.with_params] call it is made of. *)
Ltac step_bind H :=
  match type of H with
  | match ?c with Normal _ => _ | Abrupt _ => _ end = _ =>
      let E := fresh "E" in destruct c eqn:E; [|discriminate H]
  end.

Ltac open_request H :=
  cbn [request_of] in H;
  unfold Tools.autocomplete_places_request, Tools.get_directions_request,
    Tools.distance_matrix_request, Tools.get_elevation_request, Tools.geolocate_request,
    Tools.get_route_matrix_request, Tools.get_place_photo_request,
    Tools.get_data_layers_request, Tools.get_forecast_request,
    Tools.get_heatmap_tiles_request, Tools.compute_insights_places_request,
    Tools.get_place_details_request, Tools.get_hourly_weather_request,
    Tools.get_street_view_metadata_request, Tools.get_street_view_request,
    Tools.get_route_request, Tools.get_route_requestBody,
    Tools.get_building_insights_request, Tools.render_video_request,
    Tools.text_search_places_request, Tools.get_video_request,
    Tools.validate_address_request, Tools.geocode_address_request,
    Tools.compute_insights_aggregate_request, Tools.query_autocomplete_request,
    Tools.provide_validation_feedback_request, Tools.arg in H;
  cbv zeta in H;
  cbn [bind ret Monad_Completion] in H;
  repeat step_bind H;
  injection H as H.

(** Reads the values appended under the name [k] out of a successful
    [URL.with_params] call. *)
Ltac read_values E k ss Hv Hq :=
  destruct (URLFacts.with_params_values _ _ k E eq_refl) as [ss [Hv Hq]];
  cbn [values_named stmt_name append fire String.eqb Ascii.eqb Bool.eqb List.app snd] in Hv.

Lemma single_value k address ss c :
  map (@Normal string) ss = [c] ->
  (forall w, In (k, w) (URL.query_params address) <-> In w (map FormUrlencoded.encode ss)) ->
  exists s, c = Normal s
            /\ forall w, In (k, w) (URL.query_params address) <-> w = FormUrlencoded.encode s.
Proof.
  intros Hv Hq. apply map_Normal_singleton in Hv. destruct Hv as [s [-> ->]].
  exists s. split; [reflexivity|]. intros w. rewrite Hq. simpl. intuition congruence.
Qed.

Lemma no_value k address ss :
  map (@Normal string) ss = [] ->
  (forall w, In (k, w) (URL.query_params address) <-> In w (map FormUrlencoded.encode ss)) ->
  forall w, ~ In (k, w) (URL.query_params address).
Proof.
  intros Hv Hq w. apply map_Normal_nil in Hv. subst ss. now rewrite Hq.
Qed.



(** ** Optional parameters *)











(** ** The API key *)

Import Text TextFacts FormUrlencoded FormFacts.

Lemma cut_app_absent c x y :
  absent c x = true -> cut c (x ++ y) = (x ++ fst (cut c y), snd (cut c y)).
Proof.
  induction x as [|a x IH]; simpl.
  - intros _. now destruct (cut c y).
  - intros H. apply andb_prop in H. destruct H as [Ha Hx].
    destruct (Ascii.eqb a c); [discriminate|].
    now rewrite (IH Hx).
Qed.

(** A prefix without [?] and [#] does not change what is read as the
    query. *)
Lemma query_prefix x y :
  absent "?" x = true -> absent "#" x = true -> URL.query (x ++ y) = URL.query y.
Proof.
  intros Hq Hh. unfold URL.query.
  rewrite (cut_app_absent "#" x y Hh). cbn [fst].
  now rewrite (cut_app_absent "?" x _ Hq).
Qed.

Lemma query_params_prefix x y :
  absent "?" x = true -> absent "#" x = true ->
  URL.query_params (x ++ y) = URL.query_params y.
Proof.
  intros Hq Hh. unfold URL.query_params. now rewrite query_prefix.
Qed.

(** An address that ends in [?key=] and a plain key has the key as its one
    parameter. *)
Lemma query_params_key k :
  plain k = true -> URL.query_params ("?key=" ++ k) = [("key", k)].
Proof.
  intros Hk. unfold URL.query_params, URL.query.
  assert (Hh : absent "#" ("?key=" ++ k) = true).
  { rewrite absent_app, (plain_no_delimiter "#" k eq_refl Hk). reflexivity. }
  rewrite (cut_absent _ _ Hh). cbn [fst].
  change ("?key=" ++ k) with ("" ++ String "?" ("key=" ++ k)).
  rewrite cut_at by reflexivity. cbn [snd].
  rewrite pieces_absent.
  - cbn [filter nonempty String.append map].
    change (String "k" (String "e" (String "y" (String "=" k))))
      with ("key" ++ String "=" k).
    now rewrite cut_at.
  - rewrite absent_app, (plain_no_delimiter "&" k eq_refl Hk). reflexivity.
Qed.

Lemma in_key_param pre k :
  absent "?" pre = true -> absent "#" pre = true -> plain k = true ->
  In ("key", k) (URL.query_params (pre ++ "?key=" ++ k)).
Proof.
  intros Hq Hh Hk. rewrite query_params_prefix, query_params_key by assumption.
  now left.
Qed.

Lemma clean_app a b : clean (a ++ b) = clean a && clean b.
Proof.
  unfold clean. rewrite !absent_app.
  destruct (absent "?" a), (absent "?" b), (absent "#" a), (absent "#" b); reflexivity.
Qed.

Lemma in_key_param_clean pre k :
  clean pre = true -> plain k = true ->
  In ("key", k) (URL.query_params (pre ++ "?key=" ++ k)).
Proof.
  unfold clean. intros H Hk. apply andb_prop in H. destruct H. now apply in_key_param.
Qed.

Ltac key_in_query Hr Hk Hn :=
  let ss := fresh "ss" in
  let Hv := fresh "Hv" in
  let Hq := fresh "Hq" in
  open_request Hr; subst; cbn [url Tools.get_request];
  match goal with
  | E : URL.with_params _ _ = Normal _ |- _ => read_values E "key" ss Hv Hq
  end;
  cbn [key_value JS.ToBoolean JS.ToString] in Hv; rewrite ?Hn in Hv;
  cbn [List.app snd] in Hv;
  let s := fresh "s" in
  let Hc := fresh "Hc" in
  let Hw := fresh "Hw" in
  destruct (@single_value _ _ _ _ Hv Hq) as [s [Hc Hw]];
  injection Hc as <-; apply Hw; symmetry; exact (encode_plain _ Hk).

Ltac key_in_header Hr :=
  open_request Hr; subst; cbn [headers Tools.post_request Tools.get_request key_text In];
  repeat (first [left; reflexivity | right]).

Lemma key_forwarded t k args net req :
  t <> get_video ->
  plain k = true ->
  nonempty k = true ->
  (t = get_heatmap_tiles ->
   forall name s, JS.ToString (JS.obj_get args name) = Normal s -> clean s = true) ->
  issued (run (executeFunction t (Some k) args) net) = [req] ->
  match key_placement t with
  | KeyInQuery => In ("key", k) (URL.query_params (url req))
  | KeyInHeader => In ("X-Goog-Api-Key", k) (headers req)
  end.
Proof.
  intros Ht Hk Hn Hclean Hi.
  apply issued_request in Hi. destruct Hi as [_ Hr].
  destruct t; cbn [key_placement]; try contradiction;
    try solve [key_in_query Hr Hk Hn]; try solve [key_in_header Hr].
  - (* geolocate *)
    open_request Hr. subst.
    exact (in_key_param_clean "https://www.googleapis.com/geolocation/v1/geolocate" k
             eq_refl Hk).
  - (* get_heatmap_tiles *)
    open_request Hr. subst. cbn [url Tools.get_request key_text].
    pose proof (Hclean eq_refl _ _ E) as C1.
    pose proof (Hclean eq_refl _ _ E0) as C2.
    pose proof (Hclean eq_refl _ _ E1) as C3.
    pose proof (Hclean eq_refl _ _ E2) as C4.
    unfold clean in C1, C2, C3, C4.
    apply andb_prop in C1, C2, C3, C4.
    destruct C1, C2, C3, C4.
    change (In ("key", k)
              (URL.query_params
                 ("https://pollen.googleapis.com/v1/mapTypes/" ++ a ++ "/heatmapTiles/"
                  ++ a0 ++ "/" ++ a1 ++ "/" ++ a2 ++ "?key=" ++ k))).
    rewrite !query_params_prefix by first [reflexivity | assumption].
    rewrite query_params_key by assumption. now left.
  - (* render_video *)
    open_request Hr. subst.
    exact (in_key_param_clean "https://www.googleapis.com/v1/videos:renderVideo" k
             eq_refl Hk).
  - (* validate_address *)
    open_request Hr. subst.
    exact (in_key_param_clean
             "https://www.googleapis.com/addressvalidation.googleapis.com/v1:validateAddress"
             k eq_refl Hk).
  - (* provide_validation_feedback *)
    open_request Hr. subst.
    exact (in_key_param_clean
             "https://addressvalidation.googleapis.com/v1:provideValidationFeedback"
             k eq_refl Hk).
Qed.

Lemma Normal_inj (A : Type) (x y : A) : Normal x = Normal y -> x = y.
Proof. intros H. now injection H. Qed.

Lemma video_address s :
  URL.href (URL.set_search (URL.new "https://aerialview.googleapis.com/v1/videos:lookupVideo")
              (URLSearchParams.toString [("videoId", s)]))
  = "https://aerialview.googleapis.com/v1/videos:lookupVideo" ++ "?videoId=" ++ encode s.
Proof.
  cbv - [encode String.append]. simpl. now rewrite ?append_nil_r.
Qed.

Lemma video_query s k :
  plain k = true ->
  URL.query_params ("https://aerialview.googleapis.com/v1/videos:lookupVideo"
                    ++ ("?videoId=" ++ encode s) ++ "?key=" ++ k)
  = [("videoId", encode s ++ "?key=" ++ k)].
Proof.
  intros Hk. rewrite query_params_prefix by reflexivity.
  unfold URL.query_params, URL.query.
  assert (Hh : absent "#" (encode s ++ "?key=" ++ k) = true).
  { now rewrite !absent_app, (encode_no_delimiter "#" s eq_refl),
      (plain_no_delimiter "#" k eq_refl Hk). }
  assert (Ha : absent "&" (encode s ++ "?key=" ++ k) = true).
  { now rewrite !absent_app, (encode_no_delimiter "&" s eq_refl),
      (plain_no_delimiter "&" k eq_refl Hk). }
  rewrite append_assoc.
  rewrite (cut_absent "#").
  2:{ change ("?videoId=" ++ encode s ++ "?key=" ++ k)
        with ("?videoId=" ++ (encode s ++ "?key=" ++ k)).
      rewrite absent_app, Hh. reflexivity. }
  cbn [fst].
  change ("?videoId=" ++ encode s ++ "?key=" ++ k)
    with ("" ++ String "?" ("videoId=" ++ (encode s ++ "?key=" ++ k))).
  rewrite cut_at by reflexivity. cbn [snd].
  rewrite pieces_absent.
  2:{ rewrite absent_app, Ha. reflexivity. }
  cbn [filter nonempty String.append map].
  change (String "v" (String "i" (String "d" (String "e" (String "o" (String "I"
            (String "d" (String "=" (encode s ++ String "?" (String "k" (String "e"
               (String "y" (String "=" k)))))))))))))
    with ("videoId" ++ String "=" (encode s ++ "?key=" ++ k)).
  now rewrite cut_at.
Qed.

(** [get_video] never sends the key as a parameter of its own: the text
    [?key=<key>] ends up inside the value of [videoId], and no header carries
    the key either. *)
Lemma get_video_key_in_videoId k args net req :
  plain k = true ->
  issued (run (executeFunction get_video (Some k) args) net) = [req] ->
  exists s,
    JS.ToString (JS.obj_get args "videoId") = Normal s
    /\ URL.query_params (url req) = [("videoId", encode s ++ "?key=" ++ k)]
    /\ headers req = [("Content-Type", "application/json")].
Proof.
  intros Hk Hi. apply issued_request in Hi. destruct Hi as [_ Hr].
  open_request Hr. subst. cbn [url headers Tools.get_request key_text Tools.content_json].
  unfold URL.with_params in E.
  cbn [exec_all exec append bind ret Monad_Completion] in E.
  destruct (JS.ToString (JS.obj_get args "videoId")) as [s|] eqn:Es; [|discriminate].
  cbn [List.app] in E. apply Normal_inj in E. subst a.
  exists s. split; [reflexivity|]. split; [|reflexivity].
  rewrite video_address, append_assoc. now apply video_query.
Qed.

(** C5.  At [get_video({videoId: "abc123"})] the request carries the key
    neither as a query parameter named [key] nor as a header: the address
    handed to [fetch] has a second question mark, so the text [?key=<key>]
    is read as the tail of the value of [videoId]. *)
Theorem C5_get_video_sends_no_key_parameter :
  forall net,
    let req :=
      {| method := GET;
         url := "https://aerialview.googleapis.com/v1/videos:lookupVideo"
                ++ "?videoId=abc123?key=test-key_123";
         headers := [("Content-Type", "application/json")];
         body := None |} in
    issued (run (executeFunction get_video sample_key [("videoId", JStr "abc123")]) net)
    = [req]
    /\ URL.query_params (url req)
       = [("videoId", "abc123?key=test-key_123")]
    /\ key_placement get_video = KeyInQuery
    /\ (forall w, ~ In ("key", w) (URL.query_params (url req)))
    /\ (forall w, ~ In ("X-Goog-Api-Key", w) (headers req)).
Proof.
  intros net req.
  split; [apply issued_built; reflexivity|].
  split; [reflexivity|]. split; [reflexivity|]. split.
  - intros w Hin. cbv in Hin. destruct Hin as [Hin|[]]. discriminate Hin.
  - intros w Hin. cbv in Hin. destruct Hin as [Hin|[]]. discriminate Hin.
Qed.

(** ** Conforming arguments *)

Lemma Some_inj (A : Type) (x y : A) : Some x = Some y -> x = y.
Proof. intros H. now injection H. Qed.

Ltac split_conforms H :=
  unfold conforms in H;
  cbn [declaration properties required forallb fst snd mem existsb
       String.eqb Ascii.eqb Bool.eqb negb orb] in H;
  repeat (let Hc := fresh "Hc" in
          apply andb_prop in H; destruct H as [Hc H]);
  clear H.

Ltac value_ok :=
  try match goal with |- context [key_value ?a] => destruct a end;
  try match goal with
      | |- context [JS.obj_get ?args ?k] =>
          destruct (JS.obj_get args k) as [| |[]|[]| | |]
      end;
  cbn [JS.or_default JS.ToString JS.toString JS.Get key_value];
  first [ eexists; reflexivity
        | exfalso; cbn [has_type JS.ToBoolean JS.or_default negb] in *; congruence ].

Ltac stmt_ok Hf :=
  cbn [fire append] in Hf;
  try match type of Hf with
      | (if JS.ToBoolean ?g then _ else _) = _ =>
          destruct (JS.ToBoolean g) eqn:?; [|discriminate Hf]
      end;
  apply Some_inj in Hf; subst; cbn [snd];
  value_ok.

Ltac fired_ok :=
  let p := fresh "p" in
  let Hp := fresh "Hp" in
  let s := fresh "s" in
  let Hs := fresh "Hs" in
  let Hf := fresh "Hf" in
  intros p Hp; apply ParamFacts.in_fired in Hp; destruct Hp as [s [Hs Hf]];
  cbn [In] in Hs;
  repeat (destruct Hs as [Hs|Hs]; [subst s; stmt_ok Hf|]);
  contradiction.

Ltac builds_with_params :=
  match goal with
  | |- context [URL.with_params ?b ?s] =>
      let address := fresh "address" in
      let Ha := fresh "Ha" in
      destruct (@URLFacts.with_params_ok b s) as [address Ha];
      [ fired_ok | rewrite Ha; eexists; reflexivity ]
  end.

Ltac unfold_request :=
  cbn [request_of];
  unfold Tools.autocomplete_places_request, Tools.get_directions_request,
    Tools.distance_matrix_request, Tools.get_elevation_request, Tools.geolocate_request,
    Tools.get_route_matrix_request, Tools.get_place_photo_request,
    Tools.get_data_layers_request, Tools.get_forecast_request,
    Tools.get_heatmap_tiles_request, Tools.compute_insights_places_request,
    Tools.get_place_details_request, Tools.get_hourly_weather_request,
    Tools.get_street_view_metadata_request, Tools.get_street_view_request,
    Tools.get_route_request, Tools.get_route_requestBody,
    Tools.get_building_insights_request, Tools.render_video_request,
    Tools.text_search_places_request, Tools.get_video_request,
    Tools.validate_address_request, Tools.geocode_address_request,
    Tools.compute_insights_aggregate_request, Tools.query_autocomplete_request,
    Tools.provide_validation_feedback_request, Tools.arg;
  cbv zeta;
  cbn [bind ret Monad_Completion].

(** Arguments that pass the declaration's check always lead to a request,
    whatever the key. *)
Lemma conforming_builds t apiKey args :
  conforms t args = true ->
  prologue t args = Normal tt /\ exists req, request_of t apiKey args = Normal req.
Proof.
  intros Hc. split.
  - destruct t; try reflexivity.
    split_conforms Hc. cbn [prologue]. unfold Tools.get_route_requestBody, Tools.arg.
    cbv zeta. cbn [bind ret Monad_Completion].
    destruct (JS.obj_get args "origin"); cbn [has_type JS.Get] in *; try congruence.
    destruct (JS.obj_get args "destination"); cbn [has_type JS.Get] in *; congruence.
  - destruct t; split_conforms Hc; unfold_request;
      try solve [eexists; reflexivity];
      try solve [builds_with_params].
    + (* get_heatmap_tiles *)
      destruct (JS.obj_get args "mapType"); cbn [has_type JS.ToString] in *; try congruence.
      destruct (JS.obj_get args "zoom") as [| | |[]| | |];
        cbn [has_type JS.ToString] in *; try congruence.
      destruct (JS.obj_get args "x") as [| | |[]| | |];
        cbn [has_type JS.ToString] in *; try congruence.
      destruct (JS.obj_get args "y") as [| | |[]| | |];
        cbn [has_type JS.ToString] in *; try congruence.
      eexists; reflexivity.
    + (* get_place_details *)
      destruct (JS.obj_get args "placeId"); cbn [has_type JS.ToString] in *; try congruence.
      builds_with_params.
    + (* get_route *)
      destruct (JS.obj_get args "origin"); cbn [has_type JS.Get] in *; try congruence.
      destruct (JS.obj_get args "destination"); cbn [has_type JS.Get] in *; try congruence.
      eexists; reflexivity.
Qed.

(** ** The key when the environment variable is not set *)







(** * Further properties of the adapters *)

(** ** Runs *)

Lemma ok_in_2xx r : ok r = true <-> in_2xx r.
Proof.
  unfold ok, in_2xx. rewrite andb_true_iff, !Z.leb_le. tauto.
Qed.

Lemma handler_never_returns_image d prefix e v :
  handler_result d prefix e = Normal v -> exists m, v = Data (error_envelope m).
Proof.
  destruct d; simpl.
  - intros H. injection H as <-. now eexists.
  - intros H. injection H as <-. now eexists.
  - destruct (message_of e); discriminate.
Qed.

(** X1. No retry and no second call: a run of any adapter calls [fetch] at
    most once and writes at most one line to [console.error], whatever the
    arguments, the key and the network do; and a run that called [fetch] not
    at all can only resolve to an error envelope. *)
Theorem X1_at_most_one_request :
  forall t apiKey args net,
    (length (issued (run (executeFunction t apiKey args) net)) <= 1)%nat
    /\ (length (logged (run (executeFunction t apiKey args) net)) <= 1)%nat
    /\ (issued (run (executeFunction t apiKey args) net) = [] ->
        forall v, outcome (run (executeFunction t apiKey args) net) = Normal v ->
                  exists m, v = Data (error_envelope m)).
Proof.
  intros t apiKey args net. rewrite executeFunction_run.
  destruct (prologue t args) as [[]|e].
  - rewrite skeleton_run. destruct (request_of t apiKey args) as [req|e].
    + destruct (block_result _ _ _) as [v|e]; unfold issued, logged, outcome; simpl;
        (split; [lia|]); (split; [lia|]); discriminate.
    + unfold issued, logged, outcome. simpl. split; [lia|]. split; [lia|].
      intros _ v H. now apply handler_never_returns_image in H.
  - unfold issued, logged, outcome. simpl. split; [lia|]. split; [lia|].
    intros _ v H. discriminate.
Qed.







(** X5. The image adapters wrap every error they catch.  When [fetch]
    rejects with an [Error], or the bytes of a 2xx response cannot be read,
    the adapter logs the error and rejects with a new plain [Error] whose
    message is the adapter's context followed by the original message; the
    kind of the original error is not kept. *)
Theorem X5_image_adapters_wrap_errors :
  forall t apiKey args net req kind message,
    binary t = true ->
    issued (run (executeFunction t apiKey args) net) = [req] ->
    (net req = Rejects (ErrorObject kind message)
     \/ exists r, net req = Responds r /\ in_2xx r
                  /\ buffer r = Abrupt (ErrorObject kind message)) ->
    run (executeFunction t apiKey args) net
    = (Abrupt (ErrorObject "Error" (error_prefix t ++ message)),
       {| requests := [req];
          console := [(console_label t, ErrorObject kind message)] |}).
Proof.
  intros t apiKey args net req kind message Hb Hi Hn.
  destruct (issued_request _ _ _ _ Hi) as [Hp Hr].
  rewrite (request_issued _ _ _ net Hp Hr).
  unfold binary in Hb. destruct (decoding t); try discriminate.
  destruct Hn as [-> | [r [-> [Ho Hbuf]]]].
  - reflexivity.
  - apply ok_in_2xx in Ho. simpl. now rewrite Ho, Hbuf.
Qed.

Lemma X5_witness :
  outcome (run (executeFunction get_place_photo sample_key [("photo_reference", JStr "ref")])
             (fun _ => Rejects (ErrorObject "TypeError" "fetch failed")))
  = Abrupt (ErrorObject "Error"
              "An error occurred while retrieving the place photo: fetch failed").
Proof.
  rewrite (X5_image_adapters_wrap_errors get_place_photo sample_key
             [("photo_reference", JStr "ref")]
             (fun _ => Rejects (ErrorObject "TypeError" "fetch failed"))
             eq_refl eq_refl (or_introl eq_refl)).
  reflexivity.
Defined.





Lemma prologue_trivial t args : t <> get_route -> prologue t args = Normal tt.
Proof. intros H. destruct t; try reflexivity. contradiction. Qed.

(** X8. No adapter other than the two image adapters and [get_route] ever
    rejects: whatever the arguments (present or not, of any type), the key
    and the network, the executable resolves to a value. *)
Theorem X8_json_adapters_never_reject :
  forall t apiKey args net,
    binary t = false ->
    t <> get_route ->
    exists v, outcome (run (executeFunction t apiKey args) net) = Normal (Data v).
Proof.
  intros t apiKey args net Hb Ht.
  rewrite executeFunction_run, (prologue_trivial args Ht), skeleton_run.
  unfold binary in Hb.
  destruct (decoding t) eqn:Hd; try discriminate;
    (destruct (request_of t apiKey args) as [req|e]; [|now eexists]);
    (destruct (net req) as [e|r]; cbn [block_result]; [now eexists|]);
    destruct (ok r); cbn [read bind ret Monad_Completion].
  - destruct (json r); now eexists.
  - destruct (json r); now eexists.
  - destruct (text r); now eexists.
  - destruct (text r); now eexists.
Qed.

Lemma X8_witness :
  exists v,
    outcome (run (executeFunction get_forecast None [])
               (fun _ => Rejects (ThrownValue JNull)))
    = Normal (Data v).
Proof.
  apply X8_json_adapters_never_reject; [reflexivity | discriminate].
Defined.

(** X9. [get_route] rejects exactly when [origin] or [destination] is
    [undefined] or [null]: the two property reads stand before the [try]
    block, so the run then sends and logs nothing.  In every other case it
    resolves to a value after exactly one request. *)
Theorem X9_get_route_rejects_iff_endpoint_missing :
  forall apiKey args net,
    if nullish (JS.obj_get args "origin") || nullish (JS.obj_get args "destination")
    then exists e,
           run (executeFunction get_route apiKey args) net = (Abrupt e, no_trace)
    else exists v req,
           outcome (run (executeFunction get_route apiKey args) net) = Normal (Data v)
           /\ issued (run (executeFunction get_route apiKey args) net) = [req].
Proof.
  intros apiKey args net. rewrite executeFunction_run, skeleton_run.
  cbn [prologue request_of decoding].
  unfold Tools.get_route_requestBody, Tools.get_route_request, Tools.arg.
  destruct (JS.obj_get args "origin") eqn:Ho;
    destruct (JS.obj_get args "destination") eqn:Hd;
    cbn [nullish orb JS.Get bind ret Monad_Completion];
    try (now eexists);
    (destruct (net _) as [e|r]; cbn [block_result]; [now eexists; eexists|]);
    destruct (ok r); cbn [read bind ret Monad_Completion];
    destruct (json r); now eexists; eexists.
Qed.

(** ** Requests *)

(** X10. Every adapter except [get_video] forwards a configured key: for a
    non-empty key made of letters, digits and [* - . _], the request carries
    it as the query parameter [key] or as the header [X-Goog-Api-Key],
    according to the adapter ([get_heatmap_tiles], which writes its arguments
    into the path, provided they hold no [?] and no [#]). *)
Theorem X10_configured_key_is_forwarded :
  forall t k args net req,
    t <> get_video ->
    plain k = true ->
    nonempty k = true ->
    (t = get_heatmap_tiles ->
     forall name s, JS.ToString (JS.obj_get args name) = Normal s -> clean s = true) ->
    issued (run (executeFunction t (Some k) args) net) = [req] ->
    match key_placement t with
    | KeyInQuery => In ("key", k) (URL.query_params (url req))
    | KeyInHeader => In ("X-Goog-Api-Key", k) (headers req)
    end.
Proof.
  intros t k args net req. apply key_forwarded.
Qed.

Lemma X10_witness :
  In ("X-Goog-Api-Key", "test-key_123")
     [ ("Content-Type", "application/json"); ("X-Goog-FieldMask", "*");
       ("X-Goog-Api-Key", "test-key_123") ].
Proof.
  refine (@X10_configured_key_is_forwarded text_search_places "test-key_123"
            [("textQuery", JStr "pizza")] (answering success)
            (Tools.post_request "https://places.googleapis.com/v1/places:searchText"
               [ ("Content-Type", "application/json"); ("X-Goog-FieldMask", "*");
                 ("X-Goog-Api-Key", "test-key_123") ]
               (JObj [("textQuery", JStr "pizza")]))
            _ eq_refl eq_refl _ eq_refl).
  - discriminate.
  - discriminate.
Defined.

(** X11. [get_video] hands [fetch] an address with two question marks.  For
    every [videoId] and every key made of letters, digits and [* - . _], the
    only query parameter of the request is [videoId], whose value is the
    encoded argument followed by the text [?key=] and the key; the headers
    hold the content type alone. *)
Theorem X11_get_video_key_lands_in_videoId :
  forall k args net req,
    plain k = true ->
    issued (run (executeFunction get_video (Some k) args) net) = [req] ->
    exists s,
      JS.ToString (JS.obj_get args "videoId") = Normal s
      /\ URL.query_params (url req) = [("videoId", encode s ++ "?key=" ++ k)]
      /\ headers req = [("Content-Type", "application/json")].
Proof.
  intros k args net req. apply get_video_key_in_videoId.
Qed.

Lemma X11_witness :
  exists s,
    JS.ToString (JStr "a b") = Normal s
    /\ URL.query_params
         ("https://aerialview.googleapis.com/v1/videos:lookupVideo"
          ++ "?videoId=a+b?key=test-key_123")
       = [("videoId", encode s ++ "?key=" ++ "test-key_123")]
    /\ [("Content-Type", "application/json")] = [("Content-Type", "application/json")].
Proof.
  exact (@X11_get_video_key_lands_in_videoId "test-key_123" [("videoId", JStr "a b")]
           (answering success)
           (Tools.get_request
              ("https://aerialview.googleapis.com/v1/videos:lookupVideo"
               ++ "?videoId=a+b?key=test-key_123")
              Tools.content_json)
           eq_refl eq_refl).
Defined.

(** X12. Arguments that pass the declaration's check always reach the
    network: for every adapter, every key (set or not) and every network, the
    run issues exactly one request, and that request is the same whatever the
    network answers. *)
Theorem X12_conforming_arguments_reach_the_network :
  forall t apiKey args,
    conforms t args = true ->
    exists req,
      forall net, issued (run (executeFunction t apiKey args) net) = [req].
Proof.
  intros t apiKey args Hc.
  destruct (conforming_builds t apiKey args Hc) as [Hp [req Hr]].
  exists req. intros net. now apply issued_built.
Qed.

Lemma X12_witness :
  exists req,
    forall net,
      issued (run (executeFunction text_search_places sample_key
                     [("textQuery", JStr "pizza"); ("openNow", JBool true)]) net)
      = [req].
Proof.
  exact (@X12_conforming_arguments_reach_the_network text_search_places sample_key
           [("textQuery", JStr "pizza"); ("openNow", JBool true)] eq_refl).
Defined.









Lemma fired_name_in p stmts :
  In p (fired stmts) -> In (fst p) (map stmt_name stmts).
Proof.
  intros H. apply ParamFacts.in_fired in H. destruct H as [s [Hs Hf]].
  apply ParamFacts.fire_name in Hf. rewrite Hf. now apply in_map.
Qed.

Lemma with_params_names base stmts address n w :
  URL.with_params base stmts = Normal address ->
  In (n, w) (URL.query_params address) ->
  exists n0, In n0 (map stmt_name stmts) /\ n = encode n0.
Proof.
  intros H Hin. destruct (@URLFacts.with_params_read _ _ _ _ _ H Hin) as [n0 [v [Hf [-> _]]]].
  exists n0. split; [|reflexivity]. exact (@fired_name_in _ _ Hf).
Qed.

(** X15. Argument values cannot add query parameters.  In every adapter
    that builds its address with [new URL] and [searchParams], whatever the
    arguments hold, every parameter a server reads from the request bears
    one of the adapter's own names: [key], a declared parameter, or the
    constant [requiredQuality] of [get_building_insights]. *)
Theorem X15_no_parameter_injection :
  forall t apiKey args net req n w,
    address_from_URL t = true ->
    issued (run (executeFunction t apiKey args) net) = [req] ->
    In (n, w) (URL.query_params (url req)) ->
    In n (allowed_names t).
Proof.
  intros t apiKey args net req n w Ht Hi Hin.
  apply issued_request in Hi. destruct Hi as [_ Hr].
  destruct t; try discriminate Ht; open_request Hr; subst;
    cbn [url Tools.get_request] in Hin;
    match goal with
    | E : URL.with_params _ _ = Normal _ |- _ =>
        destruct (@with_params_names _ _ _ _ _ E Hin) as [n0 [Hn0 ->]]
    end;
    cbn [map stmt_name append] in Hn0;
    repeat (destruct Hn0 as [<-|Hn0];
            [ vm_compute; repeat (first [left; reflexivity | right]) |]);
    contradiction.
Qed.

Lemma X15_witness :
  In "address" (allowed_names geocode_address).
Proof.
  apply (@X15_no_parameter_injection geocode_address sample_key
           [("address", JStr "x&admin=true")] (answering success)
           (Tools.get_request
              ("https://www.googleapis.com/maps/api/geocode/json"
               ++ "?address=x%26admin%3Dtrue&language=en&region=en&key=test-key_123")
              Tools.accept_json)
           "address" "x%26admin%3Dtrue").
  - reflexivity.
  - reflexivity.
  - vm_compute. left. reflexivity.
Defined.

(** X16. The method and the headers of a request are fixed per adapter and
    key: no argument reaches them. *)
Theorem X16_arguments_never_reach_method_or_headers :
  forall t apiKey args1 args2 net1 net2 req1 req2,
    issued (run (executeFunction t apiKey args1) net1) = [req1] ->
    issued (run (executeFunction t apiKey args2) net2) = [req2] ->
    method req1 = method req2 /\ headers req1 = headers req2.
Proof.
  intros t apiKey args1 args2 net1 net2 req1 req2 H1 H2.
  apply issued_request in H1. destruct H1 as [_ H1].
  apply issued_request in H2. destruct H2 as [_ H2].
  destruct t; open_request H1; open_request H2; subst; split; reflexivity.
Qed.

Lemma X16_witness :
  method directions_request
  = method (Tools.get_request
              ("https://www.googleapis.com/maps/api/directions/json"
               ++ "?origin=undefined&destination=Lyon&mode=driving&language=en&units=metric"
               ++ "&traffic_model=best_guess&key=undefined")
              Tools.accept_json)
  /\ headers directions_request
     = headers (Tools.get_request
                  ("https://www.googleapis.com/maps/api/directions/json"
                   ++ "?origin=undefined&destination=Lyon&mode=driving&language=en&units=metric"
                   ++ "&traffic_model=best_guess&key=undefined")
                  Tools.accept_json).
Proof.
  apply (@X16_arguments_never_reach_method_or_headers get_directions None
           directions_args [("destination", JStr "Lyon")]
           (answering not_found) (answering success)).
  - reflexivity.
  - reflexivity.
Defined.

(** X17. The adapters that send their parameters in a JSON body use [POST],
    give the body and declare it as [application/json]; all the others use
    [GET] and send no body. *)
Theorem X17_body_goes_with_POST :
  forall t apiKey args net req,
    issued (run (executeFunction t apiKey args) net) = [req] ->
    match transport t with
    | InBody =>
        method req = POST
        /\ (exists s, body req = Some s)
        /\ In ("Content-Type", "application/json") (headers req)
    | InQuery => method req = GET /\ body req = None
    end.
Proof.
  intros t apiKey args net req Hi.
  apply issued_request in Hi. destruct Hi as [_ Hr].
  destruct t; open_request Hr; subst; cbn [transport];
    try match goal with
        | E : match JS.Get _ _ with Normal _ => _ | Abrupt _ => _ end = Normal _ |- _ =>
            repeat step_bind E; injection E as <-
        end;
    (split; [reflexivity|]);
    try reflexivity;
    (split; [eexists; reflexivity|]);
    cbn [headers Tools.post_request Tools.content_json In];
    repeat (first [left; reflexivity | right]).
Qed.

Lemma X17_witness :
  method directions_request = GET /\ body directions_request = None.
Proof.
  apply (@X17_body_goes_with_POST get_directions None directions_args
           (answering not_found) directions_request).
  reflexivity.
Defined.

(** X18. The key travels one way only.  An adapter that sends the key as
    the [X-Goog-Api-Key] header sends no query parameter [key], and an
    adapter that sends it in the query string sends no such header,
    whatever the arguments are. *)
Theorem X18_key_travels_one_way :
  forall t apiKey args net req w,
    issued (run (executeFunction t apiKey args) net) = [req] ->
    match key_placement t with
    | KeyInHeader => ~ In ("key", w) (URL.query_params (url req))
    | KeyInQuery => ~ In ("X-Goog-Api-Key", w) (headers req)
    end.
Proof.
  intros t apiKey args net req w Hi.
  apply issued_request in Hi. destruct Hi as [_ Hr].
  destruct t; open_request Hr; subst; cbn [key_placement]; intros Hin;
    first
      [ (* the key is a query parameter: the headers are constants *)
        cbn [headers Tools.get_request Tools.post_request Tools.accept_json
             Tools.content_json In] in Hin;
        repeat (destruct Hin as [Hin|Hin]; [discriminate Hin|]);
        contradiction
      | (* the key is a header and the address is a constant *)
        vm_compute in Hin; contradiction
      | (* the key is a header and the address has guarded parameters *)
        cbn [url Tools.get_request] in Hin;
        match goal with
        | E : URL.with_params _ _ = Normal _ |- _ =>
            destruct (@with_params_names _ _ _ _ _ E Hin) as [n0 [Hn0 Hk]]
        end;
        cbn [map stmt_name append] in Hn0;
        repeat (destruct Hn0 as [<-|Hn0]; [vm_compute in Hk; discriminate Hk|]);
        contradiction ].
Qed.

Lemma X18_witness :
  ~ In ("X-Goog-Api-Key", "test-key_123") (headers directions_request).
Proof.
  apply (@X18_key_travels_one_way get_directions None directions_args
           (answering not_found) directions_request "test-key_123").
  reflexivity.
Defined.

(** X19. [get_forecast] is the one adapter that tests the key before it
    appends it: its request has a [key] parameter exactly when the variable
    holds a non-empty text, and the parameter then holds the encoded key. *)
Theorem X19_get_forecast_sends_key_only_when_set :
  forall apiKey args net req w,
    issued (run (executeFunction get_forecast apiKey args) net) = [req] ->
    In ("key", w) (URL.query_params (url req))
    <-> exists k, apiKey = Some k /\ nonempty k = true /\ w = encode k.
Proof.
  intros apiKey args net req w Hi.
  apply issued_request in Hi. destruct Hi as [_ Hr].
  open_request Hr. subst req. cbn [url Tools.get_request].
  read_values E "key" ss Hv Hq.
  destruct apiKey as [k|]; cbn [key_value JS.ToBoolean JS.ToString] in Hv.
  - destruct (nonempty k) eqn:Hn; cbn [List.app snd] in Hv.
    + destruct (@single_value _ _ _ _ Hv Hq) as [s [Hc Hw]].
      injection Hc as <-. rewrite Hw. split.
      * intros ->. exists k. now repeat split.
      * intros [k' [Hk [_ ->]]]. now injection Hk as ->.
    + split.
      * intros Hin. exfalso. exact (@no_value _ _ _ Hv Hq w Hin).
      * intros [k' [Hk [Hn' _]]]. injection Hk as <-. congruence.
  - cbn [List.app snd] in Hv. split.
    + intros Hin. exfalso. exact (@no_value _ _ _ Hv Hq w Hin).
    + intros [k' [Hk _]]. discriminate Hk.
Qed.

Lemma X19_witness :
  In ("key", "test-key_123")
     (URL.query_params
        ("https://pollen.googleapis.com/v1/forecast:lookup"
         ++ "?location.longitude=-122.08&location.latitude=37.42&days=3&key=test-key_123"))
  <-> exists k, sample_key = Some k /\ nonempty k = true /\ "test-key_123" = encode k.
Proof.
  apply (@X19_get_forecast_sends_key_only_when_set sample_key forecast_args
           (answering success)
           (Tools.get_request
              ("https://pollen.googleapis.com/v1/forecast:lookup"
               ++ "?location.longitude=-122.08&location.latitude=37.42&days=3&key=test-key_123")
              Tools.content_json)).
  vm_compute. reflexivity.
Defined.

(** X20. A guarded optional parameter is dropped when its value is falsy.
    In the adapters that send their parameters in the query string, an
    optional parameter that is appended under [if (value)] and whose value
    inside the function is [0], the empty text, [false] or [null] is not
    sent at all. *)
Theorem X20_falsy_optional_parameter_dropped :
  forall t k apiKey args net req,
    transport t = InQuery ->
    In k (optional_parameters t) ->
    always_sent t k = false ->
    JS.ToBoolean (effective_value t args k) = false ->
    issued (run (executeFunction t apiKey args) net) = [req] ->
    forall w, ~ In (k, w) (URL.query_params (url req)).
Proof.
  intros t k apiKey args net req Ht Hk Hs Hf Hi.
  apply issued_request in Hi. destruct Hi as [_ Hr].
  unfold effective_value in Hf.
  destruct t; try discriminate Ht; cbv in Hk;
    repeat (destruct Hk as [<-|Hk];
            [ first
                [ discriminate Hs
                | open_request Hr; subst;
                  cbn [default_value String.eqb Ascii.eqb Bool.eqb] in Hf;
                  rewrite ?or_default_undefined in Hf;
                  cbn [url Tools.get_request];
                  match goal with
                  | E : URL.with_params _ _ = Normal _ |- forall w, ~ In (?n, _) _ =>
                      let ss := fresh "ss" in
                      let Hv := fresh "Hv" in
                      let Hq := fresh "Hq" in
                      read_values E n ss Hv Hq;
                      rewrite ?Hf in Hv; cbn [List.app snd] in Hv;
                      exact (@no_value _ _ _ Hv Hq)
                  end ]
            |]);
    try contradiction.
Qed.

Lemma X20_witness :
  ~ In ("heading", "0") (URL.query_params (url street_view_request)).
Proof.
  apply (@X20_falsy_optional_parameter_dropped get_street_view "heading" None
           street_view_args (answering success) street_view_request).
  - reflexivity.
  - right. left. reflexivity.
  - reflexivity.
  - reflexivity.
  - reflexivity.
Defined.

(** Splits [always_sent t k = true] into the names it lists. *)
Ltac name_cases H :=
  match type of H with
  | (_ || _)%bool = true =>
      apply orb_true_iff in H; destruct H as [H|H]; name_cases H
  | String.eqb _ _ = true => apply String.eqb_eq in H; subst
  end.

(** X21. An optional parameter that is appended without a test is sent
    whatever its value is: the request carries it exactly once, holding the
    encoded text of the value it has inside the function, be that value
    falsy or not. *)
Theorem X21_unguarded_optional_parameter_always_sent :
  forall t k apiKey args net req,
    always_sent t k = true ->
    issued (run (executeFunction t apiKey args) net) = [req] ->
    exists s, JS.ToString (effective_value t args k) = Normal s
              /\ forall w, In (k, w) (URL.query_params (url req)) <-> w = encode s.
Proof.
  intros t k apiKey args net req Hs Hi.
  apply issued_request in Hi. destruct Hi as [_ Hr].
  destruct t; try discriminate Hs; cbn [always_sent] in Hs; name_cases Hs;
    open_request Hr; subst;
    unfold effective_value;
    cbn [default_value String.eqb Ascii.eqb Bool.eqb url Tools.get_request];
    match goal with
    | E : URL.with_params _ _ = Normal _
      |- exists s, _ /\ forall w, In (?n, _) _ <-> _ =>
        let ss := fresh "ss" in
        let Hv := fresh "Hv" in
        let Hq := fresh "Hq" in
        let s := fresh "s" in
        let Hc := fresh "Hc" in
        let Hw := fresh "Hw" in
        read_values E n ss Hv Hq;
        destruct (@single_value _ _ _ _ Hv Hq) as [s [Hc Hw]];
        exists s; split;
        [ first [exact Hc | exact (toString_ToString _ Hc)] | exact Hw ]
    end.
Qed.

Lemma X21_witness :
  exists s, JS.ToString (effective_value geocode_address
                           [("address", JStr "Paris"); ("language", JStr "")] "language")
            = Normal s
            /\ forall w,
                 In ("language", w)
                    (URL.query_params
                       ("https://www.googleapis.com/maps/api/geocode/json"
                        ++ "?address=Paris&language=&region=en&key=test-key_123"))
                 <-> w = encode s.
Proof.
  apply (@X21_unguarded_optional_parameter_always_sent geocode_address "language"
           sample_key [("address", JStr "Paris"); ("language", JStr "")]
           (answering success)
           (Tools.get_request
              ("https://www.googleapis.com/maps/api/geocode/json"
               ++ "?address=Paris&language=&region=en&key=test-key_123")
              Tools.accept_json)).
  - reflexivity.
  - reflexivity.
Defined.

(** X22. The defaults of the function headers agree with the declarations:
    for arguments that pass the declaration's check, the value a declared
    parameter has inside the function, after the defaults have applied, is
    either [undefined] or of the declared type. *)
Theorem X22_defaults_have_the_declared_type :
  forall t args k ty,
    conforms t args = true ->
    In (k, ty) (properties (declaration t)) ->
    effective_value t args k = JUndefined
    \/ has_type ty (effective_value t args k) = true.
Proof.
  intros t args k ty Hc Hin.
  unfold conforms in Hc. rewrite forallb_forall in Hc.
  specialize (Hc (k, ty) Hin). cbn [fst snd] in Hc.
  unfold effective_value.
  destruct (JS.obj_get args k) eqn:Hg; cbn [JS.or_default];
    try (right; exact Hc).
  clear Hc Hg.
  destruct t; cbv in Hin;
    repeat (destruct Hin as [Hin|Hin];
            [ injection Hin as <- <-; vm_compute;
              first [left; reflexivity | right; reflexivity] |]);
    contradiction.
Qed.

Lemma X22_witness :
  effective_value get_directions directions_args "mode" = JUndefined
  \/ has_type TString (effective_value get_directions directions_args "mode") = true.
Proof.
  apply (@X22_defaults_have_the_declared_type get_directions directions_args
           "mode" TString).
  - reflexivity.
  - right. right. left. reflexivity.
Defined.
